(** * fasthtml-flowbite: attribute merging and component rendering

    A shallow embedding of the component classes of [src/components]
    ([buttons.py], [floating_form.py], [navbar.py], [accordion.py]) and the
    properties of the attribute dictionaries and markup trees they build.

    Modelling conventions.
    - A Python [str] is a [string]; each character stands for one code point
      below 256.
    - A Python [dict] is an association list in insertion order with unique
      keys ([dict_wf]); writing an existing key keeps its position, writing
      a new key appends it.
    - A value that may be [None] is a [pyval].
    - A call of a markup constructor with children and keyword arguments
      is the node [Elem tag children kw]: the keyword arguments are kept
      as the source passes them, in order.  The markup library renders underscores in
      keyword names as dashes and leaves out keywords whose value is [None];
      [present_attrs] is that last step.
    - A descriptor is a tree of distinct objects.  A method that changes a
      dictionary or a field of its argument returns the object as it is
      left next to its result; rendering the same object again is
      rendering the object the first rendering left, also when the first
      rendering raised. *)

From Stdlib Require Import String Ascii List Bool Arith Lia.
Import ListNotations.
Open Scope string_scope.

Set Warnings "-register-all".

(* ================================================================= *)
(** ** Python strings *)

(** [str.isspace] on one code point below 256. *)
Definition is_space (c : ascii) : bool :=
  let n := nat_of_ascii c in
  (((9 <=? n) && (n <=? 13)) || ((28 <=? n) && (n <=? 32))
   || (n =? 133) || (n =? 160))%nat.

(** [str.lstrip()] *)
Fixpoint lstrip (s : string) : string :=
  match s with
  | EmptyString => EmptyString
  | String c r => if is_space c then lstrip r else s
  end.

(** [str.rstrip()] *)
Fixpoint rstrip (s : string) : string :=
  match s with
  | EmptyString => EmptyString
  | String c r =>
      match rstrip r with
      | EmptyString => if is_space c then EmptyString else String c EmptyString
      | r' => String c r'
      end
  end.

(** [str.strip()] *)
Definition strip (s : string) : string := rstrip (lstrip s).

(** [sep.join(parts)] *)
Definition join (sep : string) (parts : list string) : string :=
  String.concat sep parts.

(* ================================================================= *)
(** ** Python values and insertion-ordered dictionaries *)

Inductive pyval : Type :=
| PyNone
| PyStr (s : string).

(** How a value is formatted inside an f-string. *)
Definition fmt (v : pyval) : string :=
  match v with
  | PyNone => "None"
  | PyStr s => s
  end.

Definition is_none (v : pyval) : bool :=
  match v with PyNone => true | PyStr _ => false end.

Section Dict.
Context {V : Type}.

Definition dict : Type := list (string * V).

Definition keys (d : dict) : list string := map fst d.

Definition dict_wf (d : dict) : Prop := NoDup (keys d).

(** [d.get(k)] *)
Fixpoint dict_get (k : string) (d : dict) : option V :=
  match d with
  | [] => None
  | (k', v) :: r => if String.eqb k k' then Some v else dict_get k r
  end.

(** [k in d] *)
Definition dict_mem (k : string) (d : dict) : bool :=
  match dict_get k d with Some _ => true | None => false end.

(** [d[k] = v] *)
Fixpoint dict_set (k : string) (v : V) (d : dict) : dict :=
  match d with
  | [] => [(k, v)]
  | (k', v') :: r =>
      if String.eqb k k' then (k', v) :: r else (k', v') :: dict_set k v r
  end.

(** [d.update(other)]; a dict display that unpacks [other] after the
    entries of [d] is the same. *)
Definition dict_update (d other : dict) : dict :=
  fold_left (fun acc kv => dict_set (fst kv) (snd kv) acc) other d.

(** [del d[k]] for a key that may be absent *)
Fixpoint dict_remove (k : string) (d : dict) : dict :=
  match d with
  | [] => []
  | (k', v) :: r =>
      if String.eqb k k' then r else (k', v) :: dict_remove k r
  end.

(** [d.pop(k, default)]: the value and the dictionary left behind. *)
Definition dict_pop (k : string) (default : V) (d : dict) : V * dict :=
  match dict_get k d with
  | Some v => (v, dict_remove k d)
  | None => (default, d)
  end.
End Dict.

Arguments dict V : clear implicits.

(** [f"hx_{key}"] *)
Definition hx_key (key : string) : string := "hx_" ++ key.

Arguments hx_key : simpl never.

(** [for key, value in htmx.items(): attrs[f"hx_{key}"] = value] *)
Definition set_hx (attrs : dict pyval) (htmx : dict string) : dict pyval :=
  fold_left (fun acc kv => dict_set (hx_key (fst kv)) (PyStr (snd kv)) acc)
            htmx attrs.

(** [{f"hx_{key}": value for key, value in htmx.items()}] *)
Definition hx_dict (htmx : dict string) : dict pyval := set_hx [] htmx.

(* ================================================================= *)
(** ** Markup trees *)

Inductive node : Type :=
| Text (s : string)
| Tuple (items : list node)
| Elem (tag : string) (children : list node) (kw : dict pyval).

Definition kwargs (n : node) : dict pyval :=
  match n with
  | Elem _ _ kw => kw
  | _ => []
  end.

Definition children_of (n : node) : list node :=
  match n with
  | Elem _ c _ => c
  | Tuple c => c
  | Text _ => []
  end.

(** The attributes that reach the markup: keywords given as [None] are
    left out. *)
Definition present_attrs (kw : dict pyval) : dict pyval :=
  filter (fun kv => negb (is_none (snd kv))) kw.

(** The value of keyword [k] of an element. *)
Definition attr (k : string) (n : node) : option pyval :=
  dict_get k (kwargs n).

(* ================================================================= *)
(** ** Exceptions *)

Inductive exn : Type :=
| IndexError
| KeyError.

(** What a call does: it returns a value or raises. *)
Inductive outcome (A : Type) : Type :=
| Returned (a : A)
| Raised (e : exn).

Arguments Returned {A} a.
Arguments Raised {A} e.

Definition bind {A B : Type} (m : outcome A) (f : A -> outcome B) : outcome B :=
  match m with
  | Returned a => f a
  | Raised e => Raised e
  end.

Notation "x <- m ;; k" := (bind m (fun x => k))
  (at level 61, m at next level, right associativity).

(** [d[k]] *)
Definition dict_getitem {V : Type} (d : dict V) (k : string) : outcome V :=
  match dict_get k d with
  | Some v => Returned v
  | None => Raised KeyError
  end.

(** [d.get(k, default)] *)
Definition dict_get_default {V : Type} (d : dict V) (k : string) (default : V) : V :=
  match dict_get k d with
  | Some v => v
  | None => default
  end.

(* ================================================================= *)
(** ** buttons.py *)

Module CustomButton.

Record t : Type := mk {
  label : string;
  style : string;
  type : string;
  size : string;
  pill : bool;
  htmx : dict string;
  additional_attrs : dict pyval
}.

Definition _style_classes : dict string := [
  ("default", "text-white bg-blue-700 hover:bg-blue-800 focus:ring-4 focus:ring-blue-300 dark:bg-blue-600 dark:hover:bg-blue-700 focus:outline-none dark:focus:ring-blue-800");
  ("alternative", "text-gray-900 focus:outline-none bg-white border border-gray-200 hover:bg-gray-100 hover:text-blue-700 focus:z-10 focus:ring-4 focus:ring-gray-100 dark:focus:ring-gray-700 dark:bg-gray-800 dark:text-gray-400 dark:border-gray-600 dark:hover:text-white dark:hover:bg-gray-700");
  ("dark", "text-white bg-gray-800 hover:bg-gray-900 focus:outline-none focus:ring-4 focus:ring-gray-300 dark:bg-gray-800 dark:hover:bg-gray-700 dark:focus:ring-gray-700 dark:border-gray-700");
  ("light", "text-gray-900 bg-white border border-gray-300 focus:outline-none hover:bg-gray-100 focus:ring-4 focus:ring-gray-100 dark:bg-gray-800 dark:text-white dark:border-gray-600 dark:hover:bg-gray-700 dark:hover:border-gray-600 dark:focus:ring-gray-700");
  ("green", "focus:outline-none text-white bg-green-700 hover:bg-green-800 focus:ring-4 focus:ring-green-300 dark:bg-green-600 dark:hover:bg-green-700 dark:focus:ring-green-800");
  ("red", "focus:outline-none text-white bg-red-700 hover:bg-red-800 focus:ring-4 focus:ring-red-300 dark:bg-red-600 dark:hover:bg-red-700 dark:focus:ring-red-900");
  ("yellow", "focus:outline-none text-white bg-yellow-400 hover:bg-yellow-500 focus:ring-4 focus:ring-yellow-300 dark:focus:ring-yellow-900");
  ("purple", "focus:outline-none text-white bg-purple-700 hover:bg-purple-800 focus:ring-4 focus:ring-purple-300 dark:bg-purple-600 dark:hover:bg-purple-700 dark:focus:ring-purple-900")
].

Definition _size_classes : dict string := [
  ("xs", "px-3 py-2 text-xs");
  ("sm", "px-3 py-2 text-sm");
  ("base", "px-5 py-2.5 text-sm");
  ("lg", "px-5 py-3 text-base");
  ("xl", "px-6 py-3.5 text-base")
].

(** [self._style_classes.get(self.style, self._style_classes["default"])] *)
Definition style_classes (self : t) : outcome string :=
  fallback <- dict_getitem _style_classes "default" ;;
  Returned (dict_get_default _style_classes (style self) fallback).

(** [self._size_classes.get(self.size, self._size_classes["base"])] *)
Definition size_classes (self : t) : outcome string :=
  fallback <- dict_getitem _size_classes "base" ;;
  Returned (dict_get_default _size_classes (size self) fallback).

(** The list [classes] of [__call__]. *)
Definition classes (self : t) : outcome (list string) :=
  style_classes <- style_classes self ;;
  size_classes <- size_classes self ;;
  Returned [ style_classes;
             size_classes;
             "font-medium";
             if pill self then "rounded-full" else "rounded-lg";
             "text-center";
             "me-2 mb-2" ].

(** The dictionary [attrs] of [__call__] as first built: the two
    generated entries, then [additional_attrs] unpacked over them. *)
Definition base_attrs (self : t) : outcome (dict pyval) :=
  classes <- classes self ;;
  Returned [ ("type", PyStr (type self));
             ("cls", PyStr (join " " classes)) ].

(** The dictionary [attrs] of [__call__] when it reaches the [Button]
    call: the HTMX entries are written after the unpacking. *)
Definition attrs (self : t) : outcome (dict pyval) :=
  base <- base_attrs self ;;
  Returned (set_hx (dict_update base (additional_attrs self)) (htmx self)).

Definition __call__ (self : t) : outcome node :=
  attrs <- attrs self ;;
  Returned (Elem "button" [Text (label self)] attrs).

End CustomButton.

(* ================================================================= *)
(** ** floating_form.py *)

Module FormField.

Record t : Type := mk {
  name : string;
  label : string;
  type : string;
  pattern : pyval;
  required : bool;
  placeholder : string;
  additional_attrs : dict pyval;
  htmx : dict string
}.

(** The same object after its [additional_attrs] dictionary changed. *)
Definition with_additional_attrs (field : t) (a : dict pyval) : t :=
  mk (name field) (label field) (type field) (pattern field)
     (required field) (placeholder field) a (htmx field).

End FormField.

Module FormSection.

Record t : Type := mk {
  fields : list FormField.t;
  layout : string
}.

Definition with_fields (section : t) (fs : list FormField.t) : t :=
  mk fs (layout section).

End FormSection.

Module FloatingLabelForm.

Record t : Type := mk {
  sections : list FormSection.t;
  submit_label : string;
  cls : string;
  htmx : dict string;
  custom_submit_button : option CustomButton.t
}.

Definition with_sections (self : t) (ss : list FormSection.t) : t :=
  mk ss (submit_label self) (cls self) (htmx self) (custom_submit_button self).

Definition with_custom_submit_button (self : t) (b : option CustomButton.t) : t :=
  mk (sections self) (submit_label self) (cls self) (htmx self) b.

Definition default_cls : string :=
  "block py-2.5 px-0 w-full text-sm text-gray-900 bg-transparent border-0 border-b-2 border-gray-300 appearance-none dark:text-white dark:border-gray-600 dark:focus:border-blue-500 focus:outline-none focus:ring-0 focus:border-blue-600 peer".

(** The dictionary [input_attrs] of [floating_input] as first built,
    for a field. *)
Definition input_attrs0 (field : FormField.t) : dict pyval :=
  [ ("type", PyStr (FormField.type field));
    ("name", PyStr (FormField.name field));
    ("id", PyStr ("floating_" ++ FormField.name field));
    ("placeholder", PyStr (FormField.placeholder field));
    ("required", if FormField.required field then PyStr "" else PyNone);
    ("pattern", FormField.pattern field) ].

(** The dictionary [input_attrs] of [floating_input] when it reaches the
    [Input] call, and [field.additional_attrs] as the [pop] leaves it. *)
Definition input_attrs (field : FormField.t) : dict pyval * dict pyval :=
  let input_attrs := input_attrs0 field in
  let '(additional_cls, additional_attrs) :=
    dict_pop "cls" (PyStr "") (FormField.additional_attrs field) in
  let input_attrs :=
    dict_set "cls" (PyStr (strip (default_cls ++ " " ++ fmt additional_cls)))
             input_attrs in
  let input_attrs := dict_update input_attrs (hx_dict (FormField.htmx field)) in
  let input_attrs := dict_update input_attrs additional_attrs in
  (input_attrs, additional_attrs).

(** [floating_input]: the rendered field and the field object afterwards. *)
Definition floating_input (field : FormField.t) : node * FormField.t :=
  let '(input_attrs, additional_attrs) := input_attrs field in
  (Elem "div"
     [ Elem "input" [] input_attrs;
       Elem "label" [Text (FormField.label field)]
         [ ("fr", PyStr ("floating_" ++ FormField.name field));
           ("cls", PyStr "peer-focus:font-medium absolute text-sm text-gray-500 dark:text-gray-400 duration-300 transform -translate-y-6 scale-75 top-3 -z-10 origin-[0] peer-focus:start-0 rtl:peer-focus:translate-x-1/4 rtl:peer-focus:left-auto peer-focus:text-blue-600 peer-focus:dark:text-blue-500 peer-placeholder-shown:scale-100 peer-placeholder-shown:translate-y-0 peer-focus:scale-75 peer-focus:-translate-y-6") ];
       Elem "div" [] [("cls", PyStr "validation-message")] ]
     [("cls", PyStr "relative z-0 w-full mb-5 group")],
   FormField.with_additional_attrs field additional_attrs).

Definition two_column_inputs (input1 input2 : node) : node :=
  Elem "div" [input1; input2] [("cls", PyStr "grid md:grid-cols-2 md:gap-6")].

(** [[self.floating_input(field) for field in section.fields]] *)
Fixpoint floating_inputs (fields : list FormField.t)
  : list node * list FormField.t :=
  match fields with
  | [] => ([], [])
  | field :: rest =>
      let '(n, field') := floating_input field in
      let '(ns, rest') := floating_inputs rest in
      (n :: ns, field' :: rest')
  end.

(** [render_section]: [section.fields[0]] is rendered before
    [section.fields[1]] is looked up. *)
Definition render_section (section : FormSection.t)
  : outcome node * FormSection.t :=
  if String.eqb (FormSection.layout section) "double" then
    match FormSection.fields section with
    | [] => (Raised IndexError, section)
    | field0 :: rest =>
        let '(input1, field0') := floating_input field0 in
        match rest with
        | [] => (Raised IndexError, FormSection.with_fields section [field0'])
        | field1 :: rest' =>
            let '(input2, field1') := floating_input field1 in
            (Returned (two_column_inputs input1 input2),
             FormSection.with_fields section (field0' :: field1' :: rest'))
        end
    end
  else
    let '(ns, fields') := floating_inputs (FormSection.fields section) in
    (Returned (Elem "div" ns []), FormSection.with_fields section fields').

(** [[self.render_section(section) for section in self.sections]] *)
Fixpoint render_sections (sections : list FormSection.t)
  : outcome (list node) * list FormSection.t :=
  match sections with
  | [] => (Returned [], [])
  | section :: rest =>
      match render_section section with
      | (Raised e, section') => (Raised e, section' :: rest)
      | (Returned n, section') =>
          match render_sections rest with
          | (Raised e, rest') => (Raised e, section' :: rest')
          | (Returned ns, rest') => (Returned (n :: ns), section' :: rest')
          end
      end
  end.

(** [render_submit_button]: the custom button object is assigned to
    before it is called. *)
Definition render_submit_button (self : t) : outcome node * t :=
  match custom_submit_button self with
  | Some button =>
      let button :=
        CustomButton.mk (CustomButton.label button) (CustomButton.style button)
          "submit" (CustomButton.size button) (CustomButton.pill button)
          (dict_update (CustomButton.htmx button) (htmx self))
          (CustomButton.additional_attrs button) in
      (CustomButton.__call__ button,
       with_custom_submit_button self (Some button))
  | None =>
      (Returned
         (Elem "button" [Text (submit_label self)]
            [ ("type", PyStr "submit");
              ("cls", PyStr "text-white bg-blue-700 hover:bg-blue-800 focus:ring-4 focus:outline-none focus:ring-blue-300 font-medium rounded-lg text-sm w-full sm:w-auto px-5 py-2.5 text-center dark:bg-blue-600 dark:hover:bg-blue-700 dark:focus:ring-blue-800") ]),
       self)
  end.

Definition __xt__ (self : t) : outcome node * t :=
  let form_attrs := [("cls", PyStr (cls self))] in
  let form_attrs := dict_update form_attrs (hx_dict (htmx self)) in
  match render_sections (sections self) with
  | (Raised e, sections') => (Raised e, with_sections self sections')
  | (Returned ns, sections') =>
      match render_submit_button (with_sections self sections') with
      | (Raised e, self') => (Raised e, self')
      | (Returned b, self') =>
          (Returned (Elem "form" (ns ++ [b]) form_attrs), self')
      end
  end.

End FloatingLabelForm.

(* ================================================================= *)
(** ** navbar.py *)

Module NavMenuItem.

Record t : Type := mk {
  text : string;
  href : string;
  active : bool;
  cls : string
}.

End NavMenuItem.

Module NavBar.

Record t : Type := mk {
  logo_src : string;
  brand_name : string;
  menu_items : list NavMenuItem.t;
  cta_text : string;
  brand_href : string;
  additional_buttons : list (dict pyval);
  cls : string;
  htmx : dict string
}.

Definition _render_brand (self : t) : node :=
  Elem "a"
    [ Elem "img" []
        [ ("src", PyStr (logo_src self));
          ("cls", PyStr "h-8");
          ("alt", PyStr (brand_name self ++ " Logo")) ];
      Elem "span" [Text (brand_name self)]
        [ ("cls", PyStr "self-center text-2xl font-semibold whitespace-nowrap dark:text-white") ] ]
    [ ("href", PyStr (brand_href self));
      ("cls", PyStr "flex items-center space-x-3 rtl:space-x-reverse") ].

Definition _render_mobile_menu_button (self : t) : node :=
  Elem "button"
    [ Elem "span" [Text "Open main menu"] [("cls", PyStr "sr-only")];
      Elem "svg"
        [ Elem "path" []
            [ ("stroke", PyStr "currentColor");
              ("stroke_linecap", PyStr "round");
              ("stroke_linejoin", PyStr "round");
              ("stroke_width", PyStr "2");
              ("d", PyStr "M1 1h15M1 7h15M1 13h15") ] ]
        [ ("cls", PyStr "w-5 h-5");
          ("aria_hidden", PyStr "true");
          ("xmlns", PyStr "http://www.w3.org/2000/svg");
          ("fill", PyStr "none");
          ("viewbox", PyStr "0 0 17 14") ] ]
    [ ("data_collapse_toggle", PyStr "navbar-cta");
      ("type", PyStr "button");
      ("cls", PyStr "inline-flex items-center p-2 w-10 h-10 justify-center text-sm text-gray-500 rounded-lg md:hidden hover:bg-gray-100 focus:outline-none focus:ring-2 focus:ring-gray-200 dark:text-gray-400 dark:hover:bg-gray-700 dark:focus:ring-gray-600");
      ("aria_controls", PyStr "navbar-cta");
      ("aria_expanded", PyStr "false") ].

Definition _render_buttons (self : t) : node :=
  let buttons :=
    [ Elem "button" [Text (cta_text self)]
        [ ("type", PyStr "button");
          ("cls", PyStr "text-white bg-blue-700 hover:bg-blue-800 focus:ring-4 focus:outline-none focus:ring-blue-300 font-medium rounded-lg text-sm px-4 py-2 text-center dark:bg-blue-600 dark:hover:bg-blue-700 dark:focus:ring-blue-800") ] ] in
  let buttons :=
    (buttons ++ map (fun btn => Elem "button" [] btn) (additional_buttons self))%list in
  Elem "div"
    (buttons ++ [_render_mobile_menu_button self])
    [ ("cls", PyStr "flex md:order-2 space-x-3 md:space-x-0 rtl:space-x-reverse") ].

Definition base_cls : string :=
  "block py-2 px-3 md:p-0 rounded hover:bg-gray-100 md:hover:bg-transparent md:hover:text-blue-700 md:dark:hover:text-blue-500 dark:text-white dark:hover:bg-gray-700 dark:hover:text-white md:dark:hover:bg-transparent dark:border-gray-700".

Definition active_cls : string :=
  "text-white bg-blue-700 md:bg-transparent md:text-blue-700 md:dark:text-blue-500".

Definition inactive_cls : string := "text-gray-900".

Definition _render_menu_item (self : t) (item : NavMenuItem.t) : node :=
  let cls :=
    strip (base_cls ++ " "
           ++ (if NavMenuItem.active item then active_cls else inactive_cls)
           ++ " " ++ NavMenuItem.cls item) in
  Elem "li"
    [ Elem "a" [Text (NavMenuItem.text item)]
        [ ("href", PyStr (NavMenuItem.href item));
          ("cls", PyStr cls);
          ("aria_current",
           if NavMenuItem.active item then PyStr "page" else PyNone) ] ]
    [].

Definition _render_menu (self : t) : node :=
  Elem "div"
    [ Elem "ul"
        (map (_render_menu_item self) (menu_items self))
        [ ("cls", PyStr "flex flex-col font-medium p-4 md:p-0 mt-4 border border-gray-100 rounded-lg bg-gray-50 md:space-x-8 rtl:space-x-reverse md:flex-row md:mt-0 md:border-0 md:bg-white dark:bg-gray-800 md:dark:bg-gray-900 dark:border-gray-700") ] ]
    [ ("cls", PyStr "items-center justify-between hidden w-full md:flex md:w-auto md:order-1");
      ("id", PyStr "navbar-cta") ].

Definition _render_container (self : t) : node :=
  Elem "div"
    [ _render_brand self; _render_buttons self; _render_menu self ]
    [ ("cls", PyStr "max-w-screen-xl flex flex-wrap items-center justify-between mx-auto p-4") ].

Definition __xt__ (self : t) : node :=
  Elem "nav"
    [ _render_container self ]
    (("cls", PyStr (cls self)) :: hx_dict (htmx self)).

End NavBar.

(* ================================================================= *)
(** ** accordion.py *)

Module AccordionItem.

(** [id] is filled in when the object is built, from the caller or from
    the default factory; rendering only reads it. *)
Record t : Type := mk {
  title : string;
  content : list string;
  id : string
}.

Definition __xt__ (self : t) : node :=
  Tuple
    [ Elem "h2"
        [ Elem "button"
            [ Elem "span" [Text (title self)] [];
              Elem "svg"
                [ Elem "path" []
                    [ ("stroke", PyStr "currentColor");
                      ("stroke_linecap", PyStr "round");
                      ("stroke_linejoin", PyStr "round");
                      ("stroke_width", PyStr "2");
                      ("d", PyStr "M9 5 5 1 1 5") ] ]
                [ ("data_accordion_icon", PyStr "");
                  ("cls", PyStr "w-3 h-3 rotate-180 shrink-0");
                  ("aria_hidden", PyStr "true");
                  ("xmlns", PyStr "http://www.w3.org/2000/svg");
                  ("fill", PyStr "none");
                  ("viewbox", PyStr "0 0 10 6") ] ]
            [ ("type", PyStr "button");
              ("cls", PyStr "flex items-center justify-between w-full p-5 font-medium rtl:text-right text-gray-500 border border-b-0 border-gray-200 rounded-t-xl focus:ring-4 focus:ring-gray-200 dark:focus:ring-gray-800 dark:border-gray-700 dark:text-gray-400 hover:bg-gray-100 dark:hover:bg-gray-800 gap-3");
              ("data_accordion_target", PyStr ("#" ++ id self ++ "-body"));
              ("aria_expanded", PyStr "false");
              ("aria_controls", PyStr (id self ++ "-body")) ] ]
        [ ("id", PyStr (id self ++ "-heading")) ];
      Elem "div"
        [ Elem "div"
            (map (fun content =>
                    Elem "p" [Text content]
                      [("cls", PyStr "mb-2 text-gray-500 dark:text-gray-400")])
                 (content self))
            [ ("cls", PyStr "p-5 border border-b-0 border-gray-200 dark:border-gray-700 dark:bg-gray-900") ] ]
        [ ("id", PyStr (id self ++ "-body"));
          ("cls", PyStr "hidden");
          ("aria_labelledby", PyStr (id self ++ "-heading")) ] ].

End AccordionItem.

Module Accordion.

Record t : Type := mk {
  items : list AccordionItem.t
}.

Definition __xt__ (self : t) : node :=
  Elem "div"
    (map AccordionItem.__xt__ (items self))
    [ ("id", PyStr "accordion-collapse");
      ("data_accordion", PyStr "collapse") ].

End Accordion.

(* ================================================================= *)
(** ** The merge as the specification words it

    Start from [base]; write each behavioural entry under its rewritten
    key; apply the overrides last, except that a class given both in
    [base] and in the overrides is the two joined by one space and
    stripped.  The rewritten key is spelled with the underscore of the
    source, which the markup library renders as a dash. *)

Definition spec_override (base : dict pyval) (acc : dict pyval)
           (kv : string * pyval) : dict pyval :=
  if String.eqb (fst kv) "cls" then
    match dict_get "cls" base with
    | Some b => dict_set "cls" (PyStr (strip (fmt b ++ " " ++ fmt (snd kv)))) acc
    | None => dict_set "cls" (snd kv) acc
    end
  else dict_set (fst kv) (snd kv) acc.

Definition spec_merge (base : dict pyval) (behavioral : dict string)
           (overrides : dict pyval) : dict pyval :=
  fold_left (spec_override base) overrides (set_hx base behavioral).

(* ================================================================= *)
(** ** Readers of rendered trees and sample descriptors *)

(** The entries the rewriting writes, in the order of [htmx]. *)
Definition hx_entries (htmx : dict string) : dict pyval :=
  map (fun kv => (hx_key (fst kv), PyStr (snd kv))) htmx.

(** The element identifier of the body of a rendered item. *)
Definition body_id (rendered : node) : option pyval :=
  match children_of rendered with
  | [_; body] => attr "id" body
  | _ => None
  end.

(** The element identifier of the header of a rendered item. *)
Definition heading_id (rendered : node) : option pyval :=
  match children_of rendered with
  | [header; _] => attr "id" header
  | _ => None
  end.

(** Two items built with the same explicit identifier. *)
Definition accordion_same_id : Accordion.t :=
  Accordion.mk
    [ AccordionItem.mk "First" ["one"] "faq";
      AccordionItem.mk "Second" ["two"] "faq" ].

(** A field with every optional argument left at its default. *)
Definition plain_field (name label : string) : FormField.t :=
  FormField.mk name label "text" PyNone true " " [] [].

(** A section that asks for the two-column layout with three fields. *)
Definition double_three : FormSection.t :=
  FormSection.mk
    [ plain_field "a" "A"; plain_field "b" "B"; plain_field "c" "C" ]
    "double".

(** A section that asks for the two-column layout with one field. *)
Definition double_one : FormSection.t :=
  FormSection.mk [ plain_field "a" "A" ] "double".

(** The [name] keyword of the input of a rendered field. *)
Definition input_name (rendered : node) : option pyval :=
  match children_of rendered with
  | input :: _ => attr "name" input
  | [] => None
  end.

(** A field whose overrides carry a class. *)
Definition styled_field : FormField.t :=
  FormField.mk "email" "Email" "text" PyNone true " " [("cls", PyStr "extra")] [].

(** A form of one single-layout section holding [styled_field], with the
    default submit button. *)
Definition styled_form : FloatingLabelForm.t :=
  FloatingLabelForm.mk
    [ FormSection.mk [styled_field] "single" ]
    "Submit" "max-w-md mx-auto" [] None.

(** The class of the input of the first field of the first section of a
    rendered form. *)
Definition first_input_cls (form : node) : option pyval :=
  match children_of form with
  | section :: _ =>
      match children_of section with
      | field :: _ =>
          match children_of field with
          | input :: _ => attr "cls" input
          | [] => None
          end
      | [] => None
      end
  | [] => None
  end.

(** A form whose custom submit button overrides [type] itself. *)
Definition form_with_typed_button : FloatingLabelForm.t :=
  FloatingLabelForm.mk [] "Submit" "max-w-md mx-auto"
    [("post", "/submit-form")]
    (Some (CustomButton.mk "Register" "default" "button" "base" false
             [] [("type", PyStr "button")])).

(** A form with a custom submit button whose own [type] is ["reset"]: the
    control is rendered with type ["submit"] and the form's [post]. *)
Definition form_with_reset_button : FloatingLabelForm.t :=
  FloatingLabelForm.mk [] "Submit" "max-w-md mx-auto"
    [("post", "/submit-form")]
    (Some (CustomButton.mk "Register" "default" "reset" "base" false
             [("post", "/elsewhere")] [("aria-label", PyStr "Register")])).

(** The input element of a rendered field. *)
Definition input_of (rendered : node) : node :=
  hd (Text "") (children_of rendered).

(** The button of the end-to-end scenario: green, large, pill-shaped,
    posting to [/x], with a class among its additional attributes. *)
Definition green_pill_button : CustomButton.t :=
  CustomButton.mk "Go" "green" "button" "lg" true
    [("post", "/x")] [("cls", PyStr "extra")].

(** The class generated for the green style, the large size and the pill
    shape. *)
Definition green_lg_pill_cls : string :=
  "focus:outline-none text-white bg-green-700 hover:bg-green-800 focus:ring-4 focus:ring-green-300 dark:bg-green-600 dark:hover:bg-green-700 dark:focus:ring-green-800 px-5 py-3 text-base font-medium rounded-full text-center me-2 mb-2".

(** The base attributes of a field as the merge sees them: the six
    generated entries and the fixed floating-label class. *)
Definition field_base (field : FormField.t) : dict pyval :=
  dict_set "cls" (PyStr FloatingLabelForm.default_cls)
           (FloatingLabelForm.input_attrs0 field).

(** A button whose additional attributes collide with a rewritten verb and
    also carry a key of their own. *)
Definition colliding_button : CustomButton.t :=
  CustomButton.mk "Load" "default" "button" "base" false
    [("get", "/a"); ("target", "#t")]
    [("hx_get", PyStr "/b"); ("id", PyStr "b1")].

(** The user-name field of the validation example, with an override that
    collides with a base key. *)
Definition username_field : FormField.t :=
  FormField.mk "username" "Username" "text" PyNone true " "
    [("autocomplete", PyStr "off"); ("type", PyStr "email")]
    [("post", "/check-username"); ("trigger", "change")].

(* ================================================================= *)
(** ** examples/example_validation.py *)

(** [create_navbar(current_path)]: the navigation bar of every page of the
    example, with the entry of the current path marked active. *)
Definition create_navbar (current_path : string) : NavBar.t :=
  NavBar.mk "/static/logo.svg" "TechCorp"
    [ NavMenuItem.mk "Home" "/" (String.eqb current_path "/") "";
      NavMenuItem.mk "About" "/about" (String.eqb current_path "/about") "";
      NavMenuItem.mk "Register" "/register" (String.eqb current_path "/register") "";
      NavMenuItem.mk "Contact" "/contact" (String.eqb current_path "/contact") "" ]
    "Login" "/" [] "bg-white border-gray-200 dark:bg-gray-900"
    [("boost", "true")].

(* ================================================================= *)
(** ** Further readers and conditions on descriptors *)

(** The label element of a rendered field. *)
Definition label_of (rendered : node) : node :=
  nth 1 (children_of rendered) (Text "").

(** The link of a rendered menu entry. *)
Definition link_of (entry : node) : node :=
  hd (Text "") (children_of entry).

(** Whether the link of a rendered menu entry carries [aria_current] in
    the markup. *)
Definition has_current (entry : node) : bool :=
  dict_mem "aria_current" (present_attrs (kwargs (link_of entry))).

(** The rendered entries of the menu of a navigation bar. *)
Definition menu_entries (self : NavBar.t) : list node :=
  children_of (hd (Text "") (children_of (NavBar._render_menu self))).

(** The element identifiers of the rendered items of an accordion: the
    headers', then the bodies'. *)
Definition element_ids (rendered : list node) : list (option pyval) :=
  (map heading_id rendered ++ map body_id rendered)%list.

(** A section [render_section] can render: a ["double"] one needs two
    fields to index. *)
Definition section_ok (section : FormSection.t) : bool :=
  if String.eqb (FormSection.layout section) "double"
  then (2 <=? length (FormSection.fields section))%nat
  else true.

(** The dictionaries of a field have unique keys. *)
Definition field_wf (field : FormField.t) : Prop :=
  dict_wf (FormField.additional_attrs field).

Definition section_wf (section : FormSection.t) : Prop :=
  Forall field_wf (FormSection.fields section).

Definition form_wf (self : FloatingLabelForm.t) : Prop :=
  dict_wf (FloatingLabelForm.htmx self)
  /\ Forall section_wf (FloatingLabelForm.sections self).

(** No field of the section carries a class among its additional
    attributes. *)
Definition no_cls (field : FormField.t) : Prop :=
  dict_get "cls" (FormField.additional_attrs field) = None.

Definition section_no_cls (section : FormSection.t) : Prop :=
  Forall no_cls (FormSection.fields section).

(** The custom submit button as [render_submit_button] leaves it: its
    [type] assigned, its HTMX attributes updated with the form's. *)
Definition as_submit (htmx : dict string) (button : CustomButton.t)
  : CustomButton.t :=
  CustomButton.mk (CustomButton.label button) (CustomButton.style button)
    "submit" (CustomButton.size button) (CustomButton.pill button)
    (dict_update (CustomButton.htmx button) htmx)
    (CustomButton.additional_attrs button).

(** A form after the registration page of the example: the user-name
    field, a two-column section and the custom submit button. *)
Definition register_form : FloatingLabelForm.t :=
  FloatingLabelForm.mk
    [ FormSection.mk
        [ FormField.mk "username" "Username" "text" PyNone true " "
            [("autocomplete", PyStr "off")]
            [("post", "/check-username"); ("trigger", "change");
             ("target", "next .validation-message"); ("swap", "innerHTML")] ]
        "single";
      FormSection.mk
        [ plain_field "first_name" "First name";
          plain_field "last_name" "Last name" ]
        "double" ]
    "Submit" "max-w-md mx-auto"
    [("post", "/submit-form"); ("target", "#form-response")]
    (Some (CustomButton.mk "Register" "default" "button" "base" false []
             [("type", PyStr "submit"); ("aria-label", PyStr "Register")])).

(* ================================================================= *)
(** ** Facts about dictionaries *)

Section DictFacts.
Context {V : Type}.
Implicit Types (d o : dict V) (k : string) (v : V).

Lemma dict_get_set_eq k v d : dict_get k (dict_set k v d) = Some v.
Proof.
  induction d as [|[k' v'] r IH]; simpl.
  - now rewrite String.eqb_refl.
  - destruct (String.eqb k k') eqn:E; simpl; rewrite E; auto.
Qed.

Lemma dict_get_set_neq k k' v d :
  k <> k' -> dict_get k (dict_set k' v d) = dict_get k d.
Proof.
  intros N. induction d as [|[k2 v2] r IH]; simpl.
  - apply String.eqb_neq in N. now rewrite N.
  - destruct (String.eqb k' k2) eqn:E; simpl.
    + apply String.eqb_eq in E. subst.
      apply String.eqb_neq in N. now rewrite N.
    + now rewrite IH.
Qed.

Lemma dict_get_set k k' v d :
  dict_get k (dict_set k' v d)
  = if String.eqb k k' then Some v else dict_get k d.
Proof.
  destruct (String.eqb k k') eqn:E.
  - apply String.eqb_eq in E. subst. apply dict_get_set_eq.
  - apply String.eqb_neq in E. now apply dict_get_set_neq.
Qed.

Lemma dict_get_none k d : dict_get k d = None <-> ~ In k (keys d).
Proof.
  induction d as [|[k' v'] r IH]; simpl.
  - tauto.
  - destruct (String.eqb k k') eqn:E.
    + apply String.eqb_eq in E. subst. split; [discriminate | tauto].
    + apply String.eqb_neq in E. rewrite IH. split.
      * intros H [H1 | H1]; [congruence | tauto].
      * tauto.
Qed.

Lemma dict_mem_In k d : dict_mem k d = true <-> In k (keys d).
Proof.
  unfold dict_mem. destruct (dict_get k d) eqn:E.
  - split; [intros _ | reflexivity].
    destruct (in_dec string_dec k (keys d)) as [H | H]; [assumption |].
    apply dict_get_none in H. congruence.
  - split; [discriminate |]. intros H. apply dict_get_none in E. tauto.
Qed.

Lemma dict_mem_false k d : dict_mem k d = false <-> ~ In k (keys d).
Proof.
  rewrite <- dict_mem_In. destruct (dict_mem k d); split; congruence.
Qed.

Lemma keys_set k v d :
  keys (dict_set k v d) = if dict_mem k d then keys d else (keys d ++ [k])%list.
Proof.
  unfold dict_mem. induction d as [|[k' v'] r IH]; simpl.
  - reflexivity.
  - destruct (String.eqb k k') eqn:E; simpl.
    + reflexivity.
    + rewrite IH. now destruct (dict_get k r).
Qed.

Lemma dict_wf_set k v d : dict_wf d -> dict_wf (dict_set k v d).
Proof.
  unfold dict_wf. intros W. rewrite keys_set.
  destruct (dict_mem k d) eqn:E; [assumption |].
  apply dict_mem_false in E.
  apply NoDup_app; [assumption | repeat constructor; intros [] | ].
  intros x Hx [Hk | []]. subst. tauto.
Qed.

Lemma dict_wf_update d o : dict_wf d -> dict_wf (dict_update d o).
Proof.
  unfold dict_update. revert d.
  induction o as [|[k v] r IH]; simpl; intros d W; [assumption |].
  apply IH. now apply dict_wf_set.
Qed.

Lemma dict_get_update k d o :
  dict_wf o ->
  dict_get k (dict_update d o)
  = match dict_get k o with Some v => Some v | None => dict_get k d end.
Proof.
  unfold dict_update, dict_wf. revert d.
  induction o as [|[k' v'] r IH]; simpl; intros d W; [reflexivity |].
  inversion W as [|? ? Hnin Hr]; subst.
  rewrite (IH _ Hr), dict_get_set.
  destruct (String.eqb k k') eqn:E; [| reflexivity].
  apply String.eqb_eq in E. subst.
  apply dict_get_none in Hnin. now rewrite Hnin.
Qed.

Lemma filter_ext_in_keys (f g : string -> bool) (l : list string) :
  (forall x, In x l -> f x = g x) -> filter f l = filter g l.
Proof.
  induction l as [|a l IH]; simpl; intros H; [reflexivity |].
  rewrite (H a (or_introl eq_refl)), IH; auto.
Qed.

Lemma keys_update d o :
  dict_wf o ->
  keys (dict_update d o)
  = (keys d ++ filter (fun k => negb (dict_mem k d)) (keys o))%list.
Proof.
  unfold dict_update, dict_wf. revert d.
  induction o as [|[k v] r IH]; simpl; intros d W.
  - now rewrite app_nil_r.
  - inversion W as [|? ? Hnin Hr]; subst.
    rewrite (IH _ Hr), keys_set.
    destruct (dict_mem k d) eqn:E; simpl.
    + f_equal. apply filter_ext_in_keys. intros x Hx.
      unfold dict_mem. rewrite dict_get_set.
      destruct (String.eqb x k) eqn:E2; [| reflexivity].
      apply String.eqb_eq in E2. subst. exfalso. tauto.
    + rewrite <- app_assoc. simpl. do 2 f_equal.
      apply filter_ext_in_keys. intros x Hx.
      unfold dict_mem. rewrite dict_get_set.
      destruct (String.eqb x k) eqn:E2; [| reflexivity].
      apply String.eqb_eq in E2. subst. exfalso. tauto.
Qed.

Lemma dict_update_nil o : dict_wf o -> dict_update [] o = o.
Proof.
  intros W.
  assert (G : forall d, (forall k, In k (keys o) -> ~ In k (keys d)) ->
                        dict_update d o = (d ++ o)%list).
  { unfold dict_update. clear -W. unfold dict_wf in W.
    induction o as [|[k v] r IH]; simpl; intros d H.
    - now rewrite app_nil_r.
    - inversion W as [|? ? Hnin Hr]; subst.
      assert (S : dict_set k v d = (d ++ [(k, v)])%list).
      { specialize (H k (or_introl eq_refl)). clear -H.
        induction d as [|[k' v'] d IH]; simpl; [reflexivity |].
        destruct (String.eqb k k') eqn:E.
        - apply String.eqb_eq in E. subst. simpl in H. tauto.
        - rewrite IH; [reflexivity |]. simpl in H. tauto. }
      rewrite S, IH; [now rewrite <- app_assoc | assumption |].
      intros x Hx. unfold keys. rewrite map_app, in_app_iff. simpl.
      intros [Hd | [Hk | []]].
      + apply (H x); [now right | assumption].
      + subst. tauto. }
  now apply (G []).
Qed.

Lemma dict_get_remove_eq k d : dict_wf d -> dict_get k (dict_remove k d) = None.
Proof.
  unfold dict_wf. induction d as [|[k' v'] r IH]; simpl; intros W.
  - reflexivity.
  - inversion W as [|? ? Hnin Hr]; subst.
    destruct (String.eqb k k') eqn:E.
    + apply String.eqb_eq in E. subst. now apply dict_get_none.
    + simpl. rewrite E. auto.
Qed.

Lemma dict_get_remove_neq k k' d :
  k <> k' -> dict_get k (dict_remove k' d) = dict_get k d.
Proof.
  intros N. induction d as [|[k2 v2] r IH]; simpl; [reflexivity |].
  destruct (String.eqb k' k2) eqn:E.
  - apply String.eqb_eq in E. subst.
    apply String.eqb_neq in N. now rewrite N.
  - simpl. now rewrite IH.
Qed.

Lemma In_keys_remove k k' d : In k (keys (dict_remove k' d)) -> In k (keys d).
Proof.
  induction d as [|[k2 v2] r IH]; simpl; [tauto |].
  destruct (String.eqb k' k2); simpl; tauto.
Qed.

Lemma dict_wf_remove k d : dict_wf d -> dict_wf (dict_remove k d).
Proof.
  unfold dict_wf. induction d as [|[k' v'] r IH]; simpl; intros W.
  - constructor.
  - inversion W as [|? ? Hnin Hr]; subst.
    destruct (String.eqb k k'); [assumption |].
    simpl. constructor; [| auto].
    intros H. apply In_keys_remove in H. tauto.
Qed.

End DictFacts.

(* ================================================================= *)
(** ** Facts about the [hx_] rewriting *)

Lemma hx_key_inj (a b : string) : hx_key a = hx_key b -> a = b.
Proof. unfold hx_key. simpl. intros H. now inversion H. Qed.

Lemma hx_key_eqb (a b : string) : String.eqb (hx_key a) (hx_key b) = String.eqb a b.
Proof.
  destruct (String.eqb a b) eqn:E.
  - apply String.eqb_eq in E. subst. apply String.eqb_refl.
  - apply String.eqb_neq. apply String.eqb_neq in E.
    intros H. apply E. now apply hx_key_inj.
Qed.

Lemma set_hx_update (attrs : dict pyval) (htmx : dict string) :
  set_hx attrs htmx = dict_update attrs (hx_entries htmx).
Proof.
  unfold set_hx, dict_update, hx_entries. revert attrs.
  induction htmx as [|[k v] r IH]; simpl; intros attrs; [reflexivity | apply IH].
Qed.

Lemma keys_hx_entries (htmx : dict string) :
  keys (hx_entries htmx) = map hx_key (keys htmx).
Proof.
  unfold keys, hx_entries. rewrite !map_map. reflexivity.
Qed.

Lemma dict_wf_hx_entries (htmx : dict string) :
  dict_wf htmx -> dict_wf (hx_entries htmx).
Proof.
  unfold dict_wf. rewrite keys_hx_entries.
  induction (keys htmx) as [|k r IH]; simpl; intros W; [constructor |].
  inversion W as [|? ? Hnin Hr]; subst. constructor; [| auto].
  rewrite in_map_iff. intros [x [Hx Hin]].
  apply hx_key_inj in Hx. subst. tauto.
Qed.

Lemma hx_dict_entries (htmx : dict string) :
  dict_wf htmx -> hx_dict htmx = hx_entries htmx.
Proof.
  intros W. unfold hx_dict. rewrite set_hx_update.
  apply dict_update_nil. now apply dict_wf_hx_entries.
Qed.

Lemma dict_get_hx_entries (verb : string) (htmx : dict string) :
  dict_get (hx_key verb) (hx_entries htmx) = option_map PyStr (dict_get verb htmx).
Proof.
  induction htmx as [|[k v] r IH]; [reflexivity |].
  cbn [hx_entries map dict_get fst snd]. rewrite hx_key_eqb.
  fold (hx_entries r). rewrite IH. now destruct (String.eqb verb k).
Qed.

(** A key that is not a rewritten verb is not written by the rewriting. *)
Lemma dict_get_hx_entries_other (k : string) (htmx : dict string) :
  (forall verb, In verb (keys htmx) -> k <> hx_key verb) ->
  dict_get k (hx_entries htmx) = None.
Proof.
  intros H. apply dict_get_none. rewrite keys_hx_entries, in_map_iff.
  intros [verb [E Hin]]. apply (H verb Hin). now symmetry.
Qed.

Lemma dict_get_set_hx (k : string) (attrs : dict pyval) (htmx : dict string) :
  dict_wf htmx ->
  dict_get k (set_hx attrs htmx)
  = match dict_get k (hx_entries htmx) with
    | Some v => Some v
    | None => dict_get k attrs
    end.
Proof.
  intros W. rewrite set_hx_update.
  apply dict_get_update. now apply dict_wf_hx_entries.
Qed.

(* ================================================================= *)
(** ** Facts about stripping *)

Lemma lstrip_head (c : ascii) (r : string) :
  is_space c = false -> lstrip (String c r) = String c r.
Proof. intros H. simpl. now rewrite H. Qed.

Lemma rstrip_app (a b : string) :
  rstrip (a ++ b)
  = match rstrip b with
    | EmptyString => rstrip a
    | _ => a ++ rstrip b
    end.
Proof.
  induction a as [|c a IH]; simpl.
  - now destruct (rstrip b).
  - rewrite IH. destruct (rstrip b) eqn:E; [reflexivity |].
    destruct (a ++ String a0 s) eqn:E2; [| reflexivity].
    destruct a; discriminate.
Qed.

(** Stripping leaves an already clean prefix alone. *)
Lemma strip_clean_prefix (c : ascii) (a b : string) :
  is_space c = false ->
  rstrip (String c a) = String c a ->
  strip (String c a ++ b) = String c a ++ rstrip b.
Proof.
  intros Hc Ha. unfold strip.
  change (String c a ++ b) with (String c (a ++ b)).
  rewrite lstrip_head by assumption.
  change (String c (a ++ b)) with (String c a ++ b).
  rewrite rstrip_app, Ha.
  destruct (rstrip b); [| reflexivity].
  simpl. f_equal. clear. induction a; simpl; congruence.
Qed.

Example strip_example : strip ("a b" ++ " " ++ "c") = "a b c".
Proof. reflexivity. Qed.

Example strip_only_spaces : strip "   " = "".
Proof. reflexivity. Qed.

Example strip_keeps_inner : strip " a  b " = "a  b".
Proof. reflexivity. Qed.

(* ================================================================= *)
(** ** Style and size lookup (buttons.py) *)

Lemma style_table_nonempty (k c : string) :
  dict_get k CustomButton._style_classes = Some c -> c <> "".
Proof.
  unfold CustomButton._style_classes. cbn [dict_get].
  repeat match goal with
         | |- context [if ?b then _ else _] =>
             destruct b; [intros H; injection H as <-; discriminate |]
         end.
  discriminate.
Qed.

Lemma size_table_nonempty (k c : string) :
  dict_get k CustomButton._size_classes = Some c -> c <> "".
Proof.
  unfold CustomButton._size_classes. cbn [dict_get].
  repeat match goal with
         | |- context [if ?b then _ else _] =>
             destruct b; [intros H; injection H as <-; discriminate |]
         end.
  discriminate.
Qed.

(** C9. The two lookups of [CustomButton.__call__] never raise: for every
    button, whatever strings its [style] and [size] are, each returns a
    class string that is not empty; a recognised key gives its own table
    entry, an unrecognised style gives the entry of ["default"] and an
    unrecognised size the entry of ["base"]. *)
Theorem style_size_lookup_total (self : CustomButton.t) :
  exists sc zc : string,
    CustomButton.style_classes self = Returned sc
    /\ CustomButton.size_classes self = Returned zc
    /\ sc <> "" /\ zc <> ""
    /\ (~ In (CustomButton.style self) (keys CustomButton._style_classes)
        -> Some sc = dict_get "default" CustomButton._style_classes)
    /\ (~ In (CustomButton.size self) (keys CustomButton._size_classes)
        -> Some zc = dict_get "base" CustomButton._size_classes)
    /\ (forall c, dict_get (CustomButton.style self) CustomButton._style_classes = Some c
                  -> sc = c)
    /\ (forall c, dict_get (CustomButton.size self) CustomButton._size_classes = Some c
                  -> zc = c).
Proof.
  unfold CustomButton.style_classes, CustomButton.size_classes.
  destruct (dict_get "default" CustomButton._style_classes) as [ds|] eqn:Ed;
    [| discriminate Ed].
  destruct (dict_get "base" CustomButton._size_classes) as [bs|] eqn:Eb;
    [| discriminate Eb].
  unfold dict_getitem. rewrite Ed, Eb. cbn [bind].
  unfold dict_get_default.
  eexists. eexists.
  split; [reflexivity |]. split; [reflexivity |].
  destruct (dict_get (CustomButton.style self) CustomButton._style_classes)
    as [sc|] eqn:Es;
    destruct (dict_get (CustomButton.size self) CustomButton._size_classes)
      as [zc|] eqn:Ez;
    repeat split;
    try (intros c Hc; congruence);
    try (intros Hn; apply dict_get_none in Hn; congruence);
    try (intros _; reflexivity);
    eauto using style_table_nonempty, size_table_nonempty.
Qed.

(* ================================================================= *)
(** ** NavBar (navbar.py) *)

(** C10. For every NavBar, the mobile-menu toggle's [aria_controls] and
    [data_collapse_toggle] and the menu container's [id] are the literal
    ["navbar-cta"], whatever the descriptor holds; the toggle is the last
    child of the button cluster and the menu the last child of the
    container of the same rendering; any two NavBars render the same
    identifier. *)
Theorem navbar_toggle_and_menu_share_id (self other : NavBar.t) :
  attr "aria_controls" (NavBar._render_mobile_menu_button self)
  = Some (PyStr "navbar-cta")
  /\ attr "data_collapse_toggle" (NavBar._render_mobile_menu_button self)
     = Some (PyStr "navbar-cta")
  /\ attr "id" (NavBar._render_menu self) = Some (PyStr "navbar-cta")
  /\ children_of (NavBar.__xt__ self) = [NavBar._render_container self]
  /\ children_of (NavBar._render_container self)
     = [NavBar._render_brand self; NavBar._render_buttons self;
        NavBar._render_menu self]
  /\ last (children_of (NavBar._render_buttons self)) (Text "")
     = NavBar._render_mobile_menu_button self
  /\ attr "id" (NavBar._render_menu self) = attr "id" (NavBar._render_menu other).
Proof.
  repeat split; try reflexivity.
  unfold NavBar._render_buttons. cbn [children_of].
  apply last_last.
Qed.

Lemma app_assoc_string (a b c : string) : (a ++ b) ++ c = a ++ (b ++ c).
Proof. induction a; simpl; congruence. Qed.

(** C6. For every NavBar and menu entry, the entry is a list item holding
    one link whose class is the stripped, space-separated sequence of the
    fixed base class, the active class when the entry is active and the
    inactive class otherwise, and the entry's own class; that is, the base
    class, a space, the selected class, and then the entry's class after a
    space with trailing blanks dropped.  The link's [aria_current] keyword
    is ["page"] when the entry is active and [None] otherwise, never the
    empty string, so the attribute is present exactly for active
    entries. *)
Theorem navbar_menu_item_class_and_current (self : NavBar.t) (item : NavMenuItem.t) :
  let variant :=
    if NavMenuItem.active item then NavBar.active_cls else NavBar.inactive_cls in
  exists link : node,
    NavBar._render_menu_item self item = Elem "li" [link] []
    /\ attr "cls" link
       = Some (PyStr (strip (NavBar.base_cls ++ " " ++ variant ++ " "
                             ++ NavMenuItem.cls item)))
    /\ strip (NavBar.base_cls ++ " " ++ variant ++ " " ++ NavMenuItem.cls item)
       = (NavBar.base_cls ++ " " ++ variant) ++ rstrip (" " ++ NavMenuItem.cls item)
    /\ NavBar.active_cls <> NavBar.inactive_cls
    /\ attr "aria_current" link
       = Some (if NavMenuItem.active item then PyStr "page" else PyNone)
    /\ attr "aria_current" link <> Some (PyStr "")
    /\ dict_mem "aria_current" (present_attrs (kwargs link)) = NavMenuItem.active item.
Proof.
  intros variant. eexists. split; [reflexivity |].
  split; [reflexivity |].
  split.
  { replace (NavBar.base_cls ++ " " ++ variant ++ " " ++ NavMenuItem.cls item)
      with ((NavBar.base_cls ++ " " ++ variant) ++ (" " ++ NavMenuItem.cls item)).
    - subst variant. destruct (NavMenuItem.active item).
      + apply strip_clean_prefix; reflexivity.
      + apply strip_clean_prefix; reflexivity.
    - now rewrite !app_assoc_string. }
  split; [discriminate |].
  split; [reflexivity |].
  split.
  - cbn. destruct (NavMenuItem.active item); discriminate.
  - cbn. destruct (NavMenuItem.active item); reflexivity.
Qed.

(* ================================================================= *)
(** ** Accordion (accordion.py) *)

(** C8. For every accordion item, the rendering is a header and a body:
    the header carries the identifier [<id>-heading] and holds a toggle
    button whose [data_accordion_target] is [#<id>-body], whose
    [aria_controls] is [<id>-body] and whose [aria_expanded] is ["false"];
    the body carries the identifier [<id>-body], the class ["hidden"] and
    [aria_labelledby] equal to [<id>-heading]. *)
Theorem accordion_item_linkage (self : AccordionItem.t) :
  exists toggle header body : node,
    AccordionItem.__xt__ self = Tuple [header; body]
    /\ children_of header = [toggle]
    /\ attr "id" header = Some (PyStr (AccordionItem.id self ++ "-heading"))
    /\ attr "data_accordion_target" toggle
       = Some (PyStr ("#" ++ AccordionItem.id self ++ "-body"))
    /\ attr "aria_controls" toggle = Some (PyStr (AccordionItem.id self ++ "-body"))
    /\ attr "aria_expanded" toggle = Some (PyStr "false")
    /\ attr "id" body = Some (PyStr (AccordionItem.id self ++ "-body"))
    /\ attr "cls" body = Some (PyStr "hidden")
    /\ attr "aria_labelledby" body
       = Some (PyStr (AccordionItem.id self ++ "-heading")).
Proof.
  unfold AccordionItem.__xt__.
  do 3 eexists. split; [reflexivity |].
  repeat split.
Qed.

(** C5, counterexample.  An accordion whose two items share the explicit
    identifier ["faq"] is built and rendered without any error: the tree
    has both items, and both bodies carry the identifier ["faq-body"]. *)
Lemma accordion_same_id_renders :
  map AccordionItem.id (Accordion.items accordion_same_id) = ["faq"; "faq"]
  /\ (exists children kw,
         Accordion.__xt__ accordion_same_id = Elem "div" children kw
         /\ length children = 2
         /\ map body_id children
            = [Some (PyStr "faq-body"); Some (PyStr "faq-body")]).
Proof.
  split; [reflexivity |].
  do 2 eexists. split; [reflexivity |]. split; reflexivity.
Qed.

(** C5, as the code has it.  Every accordion, whatever identifiers its
    items carry, renders to one tree holding the rendering of each item in
    item order; nothing compares identifiers, so two items with the same
    identifier give two headers and two bodies with the same element
    identifiers. *)
Theorem accordion_renders_every_item (self : Accordion.t) :
  Accordion.__xt__ self
  = Elem "div" (map AccordionItem.__xt__ (Accordion.items self))
         [("id", PyStr "accordion-collapse"); ("data_accordion", PyStr "collapse")]
  /\ length (children_of (Accordion.__xt__ self)) = length (Accordion.items self)
  /\ map body_id (children_of (Accordion.__xt__ self))
     = map (fun i => Some (PyStr (AccordionItem.id i ++ "-body")))
           (Accordion.items self)
  /\ map heading_id (children_of (Accordion.__xt__ self))
     = map (fun i => Some (PyStr (AccordionItem.id i ++ "-heading")))
           (Accordion.items self).
Proof.
  unfold Accordion.__xt__. cbn [children_of].
  split; [reflexivity |].
  split; [apply length_map |].
  split; rewrite map_map; apply map_ext; intros i; reflexivity.
Qed.

(* ================================================================= *)
(** ** Form sections (floating_form.py) *)

(** C3, counterexample.  A ["double"] section with three fields is built
    and rendered without any error: the tree is the two-column grid of
    the first two fields, and the third field is not in it. *)
Lemma double_section_three_fields_renders :
  FormSection.layout double_three = "double"
  /\ length (FormSection.fields double_three) = 3
  /\ (exists tree section',
         FloatingLabelForm.render_section double_three = (Returned tree, section')
         /\ map input_name (children_of tree)
            = [Some (PyStr "a"); Some (PyStr "b")]).
Proof.
  split; [reflexivity |]. split; [reflexivity |].
  do 2 eexists. split; reflexivity.
Qed.

(** C3, as the code has it.  No check is made when a section is built.
    Rendering a section whose layout is ["double"] raises [IndexError],
    and returns no tree, when the section has fewer than two fields;
    with two or more fields it returns the two-column grid of the first
    two, and further fields are left out. *)
Theorem double_section_rendering (section : FormSection.t) :
  FormSection.layout section = "double" ->
  match FormSection.fields section with
  | field0 :: field1 :: _ =>
      fst (FloatingLabelForm.render_section section)
      = Returned (FloatingLabelForm.two_column_inputs
                    (fst (FloatingLabelForm.floating_input field0))
                    (fst (FloatingLabelForm.floating_input field1)))
  | _ => fst (FloatingLabelForm.render_section section) = Raised IndexError
  end.
Proof.
  intros L. unfold FloatingLabelForm.render_section. rewrite L.
  cbn [String.eqb Ascii.eqb Bool.eqb].
  destruct (FormSection.fields section) as [|field0 [|field1 rest]].
  - reflexivity.
  - destruct (FloatingLabelForm.floating_input field0). reflexivity.
  - destruct (FloatingLabelForm.floating_input field0).
    destruct (FloatingLabelForm.floating_input field1). reflexivity.
Qed.

Lemma double_section_rendering_witness :
  fst (FloatingLabelForm.render_section double_one) = Raised IndexError.
Proof.
  exact (double_section_rendering double_one eq_refl).
Defined.

(* ================================================================= *)
(** ** Rendering a form twice (floating_form.py) *)

(** C4, on the code.  Rendering [styled_form] and then rendering the same
    form object again gives two different trees: the first input has the
    base class followed by ["extra"], the second has the base class only,
    because the first rendering popped ["cls"] out of the field's
    [additional_attrs]; the form object after the first rendering is not
    the one that was passed in. *)
Theorem render_twice_differs :
  exists (tree1 tree2 : node) (form1 form2 : FloatingLabelForm.t),
    FloatingLabelForm.__xt__ styled_form = (Returned tree1, form1)
    /\ FloatingLabelForm.__xt__ form1 = (Returned tree2, form2)
    /\ first_input_cls tree1
       = Some (PyStr (FloatingLabelForm.default_cls ++ " extra"))
    /\ first_input_cls tree2 = Some (PyStr FloatingLabelForm.default_cls)
    /\ tree1 <> tree2
    /\ form1 <> styled_form.
Proof.
  do 4 eexists.
  split; [vm_compute; reflexivity |].
  split; [vm_compute; reflexivity |].
  split; [reflexivity |].
  split; [reflexivity |].
  split.
  - intros H. apply (f_equal first_input_cls) in H. vm_compute in H. discriminate H.
  - intros H.
    apply (f_equal (fun f => map FormSection.fields (FloatingLabelForm.sections f))) in H.
    vm_compute in H. discriminate H.
Qed.

(* ================================================================= *)
(** ** The submit control (floating_form.py) *)

Lemma classes_returned (self : CustomButton.t) :
  exists l, CustomButton.classes self = Returned l.
Proof.
  unfold CustomButton.classes, CustomButton.style_classes,
    CustomButton.size_classes.
  eexists. reflexivity.
Qed.

Lemma base_attrs_returned (self : CustomButton.t) :
  exists c, CustomButton.base_attrs self
            = Returned [("type", PyStr (CustomButton.type self)); ("cls", PyStr c)].
Proof.
  unfold CustomButton.base_attrs.
  destruct (classes_returned self) as [l E]. rewrite E.
  eexists. reflexivity.
Qed.

Lemma call_returned (self : CustomButton.t) :
  exists c,
    CustomButton.__call__ self
    = Returned
        (Elem "button" [Text (CustomButton.label self)]
           (set_hx
              (dict_update [("type", PyStr (CustomButton.type self)); ("cls", PyStr c)]
                           (CustomButton.additional_attrs self))
              (CustomButton.htmx self))).
Proof.
  unfold CustomButton.__call__, CustomButton.attrs.
  destruct (base_attrs_returned self) as [c E]. rewrite E.
  exists c. reflexivity.
Qed.

Lemma dict_get_set_hx_other (k : string) (attrs : dict pyval) (htmx : dict string) :
  (forall verb, k <> hx_key verb) ->
  dict_get k (set_hx attrs htmx) = dict_get k attrs.
Proof.
  intros N. unfold set_hx. revert attrs.
  induction htmx as [|[verb v] r IH]; intros attrs; [reflexivity |].
  cbn [fold_left fst snd]. rewrite IH. now apply dict_get_set_neq.
Qed.

Lemma type_not_hx (verb : string) : "type" <> hx_key verb.
Proof. unfold hx_key. discriminate. Qed.

Lemma cls_not_hx (verb : string) : "cls" <> hx_key verb.
Proof. unfold hx_key. discriminate. Qed.

(** C7, counterexample.  The custom submit button of
    [form_with_typed_button] carries [type] among its additional
    attributes; the rendered control has that type, not ["submit"]. *)
Lemma custom_submit_button_keeps_override_type :
  exists (n : node) (self' : FloatingLabelForm.t),
    FloatingLabelForm.render_submit_button form_with_typed_button
    = (Returned n, self')
    /\ attr "type" n = Some (PyStr "button")
    /\ attr "hx_post" n = Some (PyStr "/submit-form").
Proof.
  do 2 eexists. split; [vm_compute; reflexivity |]. split; reflexivity.
Qed.

(** C7, as the code has it.  With a custom submit button, the rendered
    control's [type] is ["submit"] whatever the button's own [type] field
    was, unless the button's additional attributes carry [type], whose
    value is then the rendered one; every verb of the form's HTMX
    attributes reaches the control with the form's value, and a verb that
    only the button carries keeps the button's value.  Without a custom
    button the control is the fixed default button labelled with
    [submit_label], of type ["submit"]. *)
Theorem submit_button_rendering (self : FloatingLabelForm.t) :
  dict_wf (FloatingLabelForm.htmx self) ->
  (forall button : CustomButton.t,
      FloatingLabelForm.custom_submit_button self = Some button ->
      dict_wf (CustomButton.htmx button) ->
      dict_wf (CustomButton.additional_attrs button) ->
      exists n : node,
        fst (FloatingLabelForm.render_submit_button self) = Returned n
        /\ attr "type" n
           = Some (match dict_get "type" (CustomButton.additional_attrs button) with
                   | Some v => v
                   | None => PyStr "submit"
                   end)
        /\ (forall verb v,
               dict_get verb (FloatingLabelForm.htmx self) = Some v ->
               attr (hx_key verb) n = Some (PyStr v))
        /\ (forall verb v,
               dict_get verb (FloatingLabelForm.htmx self) = None ->
               dict_get verb (CustomButton.htmx button) = Some v ->
               attr (hx_key verb) n = Some (PyStr v)))
  /\ (FloatingLabelForm.custom_submit_button self = None ->
      fst (FloatingLabelForm.render_submit_button self)
      = Returned
          (Elem "button" [Text (FloatingLabelForm.submit_label self)]
             [ ("type", PyStr "submit");
               ("cls", PyStr "text-white bg-blue-700 hover:bg-blue-800 focus:ring-4 focus:outline-none focus:ring-blue-300 font-medium rounded-lg text-sm w-full sm:w-auto px-5 py-2.5 text-center dark:bg-blue-600 dark:hover:bg-blue-700 dark:focus:ring-blue-800") ])).
Proof.
  intros Wf. split.
  - intros button E Wh Wa.
    unfold FloatingLabelForm.render_submit_button. rewrite E. cbn [fst].
    match goal with |- context [CustomButton.__call__ ?b] =>
      destruct (call_returned b) as [c Ec]; rewrite Ec end.
    cbn [CustomButton.type CustomButton.additional_attrs CustomButton.htmx
         CustomButton.label].
    eexists. split; [reflexivity |].
    assert (Wu : dict_wf (dict_update (CustomButton.htmx button)
                                      (FloatingLabelForm.htmx self)))
      by now apply dict_wf_update.
    unfold attr. cbn [kwargs].
    split; [| split].
    + rewrite dict_get_set_hx_other by apply type_not_hx.
      rewrite dict_get_update by assumption.
      now destruct (dict_get "type" (CustomButton.additional_attrs button)).
    + intros verb v Hv.
      rewrite dict_get_set_hx by assumption.
      rewrite dict_get_hx_entries, dict_get_update by assumption.
      now rewrite Hv.
    + intros verb v Hn Hv.
      rewrite dict_get_set_hx by assumption.
      rewrite dict_get_hx_entries, dict_get_update by assumption.
      now rewrite Hn, Hv.
  - intros E. unfold FloatingLabelForm.render_submit_button. now rewrite E.
Qed.

Lemma dict_wf_one {V : Type} (k : string) (v : V) : dict_wf [(k, v)].
Proof. repeat constructor. intros []. Qed.

Lemma submit_button_rendering_witness :
  exists n : node,
    fst (FloatingLabelForm.render_submit_button form_with_reset_button) = Returned n
    /\ attr "type" n = Some (PyStr "submit")
    /\ attr "hx_post" n = Some (PyStr "/submit-form").
Proof.
  destruct (submit_button_rendering form_with_reset_button
              (dict_wf_one "post" "/submit-form")) as [H _].
  destruct (H _ eq_refl (dict_wf_one "post" "/elsewhere")
              (dict_wf_one "aria-label" (PyStr "Register")))
    as [n [E [T [F _]]]].
  exists n. split; [exact E |]. split; [exact T |].
  exact (F "post" "/submit-form" eq_refl).
Defined.

(* ================================================================= *)
(** ** Classes given by the caller (buttons.py, floating_form.py) *)

Lemma input_attrs_unfold (field : FormField.t) :
  let popped := dict_pop "cls" (PyStr "") (FormField.additional_attrs field) in
  FloatingLabelForm.input_attrs field
  = (dict_update
       (dict_update
          (dict_set "cls"
             (PyStr (strip (FloatingLabelForm.default_cls ++ " " ++ fmt (fst popped))))
             (FloatingLabelForm.input_attrs0 field))
          (hx_dict (FormField.htmx field)))
       (snd popped),
     snd popped).
Proof.
  intros popped. unfold FloatingLabelForm.input_attrs.
  fold popped. now destruct popped.
Qed.

Lemma floating_input_kwargs (field : FormField.t) :
  kwargs (input_of (fst (FloatingLabelForm.floating_input field)))
  = fst (FloatingLabelForm.input_attrs field).
Proof.
  unfold FloatingLabelForm.floating_input.
  now destruct (FloatingLabelForm.input_attrs field).
Qed.

Lemma dict_wf_popped (a : dict pyval) (default : pyval) :
  dict_wf a -> dict_wf (snd (dict_pop "cls" default a)).
Proof.
  intros W. unfold dict_pop. destruct (dict_get "cls" a); cbn [snd]; auto.
  now apply dict_wf_remove.
Qed.

Lemma dict_get_cls_popped (a : dict pyval) (default : pyval) :
  dict_wf a -> dict_get "cls" (snd (dict_pop "cls" default a)) = None.
Proof.
  intros W. unfold dict_pop. destruct (dict_get "cls" a) eqn:E; cbn [snd]; auto.
  now apply dict_get_remove_eq.
Qed.

Lemma dict_get_other_popped (k : string) (a : dict pyval) (default : pyval) :
  k <> "cls" -> dict_get k (snd (dict_pop "cls" default a)) = dict_get k a.
Proof.
  intros N. unfold dict_pop. destruct (dict_get "cls" a) eqn:E; cbn [snd]; auto.
  now apply dict_get_remove_neq.
Qed.

Lemma dict_wf_hx_dict (htmx : dict string) : dict_wf (hx_dict htmx).
Proof.
  unfold hx_dict. rewrite set_hx_update. apply dict_wf_update. constructor.
Qed.

Lemma dict_get_hx_dict_other (k : string) (htmx : dict string) :
  (forall verb, k <> hx_key verb) -> dict_get k (hx_dict htmx) = None.
Proof.
  intros N. unfold hx_dict. now rewrite dict_get_set_hx_other.
Qed.

(** The class of the rendered input, whatever else the field carries. *)
Lemma floating_input_cls (field : FormField.t) :
  dict_wf (FormField.additional_attrs field) ->
  attr "cls" (input_of (fst (FloatingLabelForm.floating_input field)))
  = Some (PyStr (strip (FloatingLabelForm.default_cls ++ " "
                        ++ fmt (fst (dict_pop "cls" (PyStr "")
                                       (FormField.additional_attrs field)))))).
Proof.
  intros W. unfold attr. rewrite floating_input_kwargs.
  pose proof (input_attrs_unfold field) as U. cbv zeta in U. rewrite U.
  cbn [fst].
  rewrite dict_get_update by now apply dict_wf_popped.
  rewrite dict_get_cls_popped by assumption.
  rewrite dict_get_update by apply dict_wf_hx_dict.
  rewrite dict_get_hx_dict_other by apply cls_not_hx.
  apply dict_get_set_eq.
Qed.

(** C2, counterexample.  The generated class of [green_pill_button] is the
    green, large, pill class string, but the rendered button's class is
    ["extra"] alone: the override replaced the generated class. *)
Lemma button_override_class_replaces :
  CustomButton.base_attrs green_pill_button
  = Returned [("type", PyStr "button"); ("cls", PyStr green_lg_pill_cls)]
  /\ (exists n : node,
         CustomButton.__call__ green_pill_button = Returned n
         /\ attr "cls" n = Some (PyStr "extra")
         /\ attr "cls" n <> Some (PyStr (strip (green_lg_pill_cls ++ " " ++ "extra")))
         /\ attr "hx_post" n = Some (PyStr "/x")).
Proof.
  split; [reflexivity |].
  eexists. split; [vm_compute; reflexivity |].
  split; [reflexivity |]. split; [| reflexivity].
  vm_compute. discriminate.
Qed.

(** C2, as the code has it.  For a form field whose additional attributes
    carry a class, the rendered input's class is the fixed floating-label
    class, one space and the given class, stripped.  For a button whose
    additional attributes carry a class, the rendered button's class is
    the given class alone: it replaces the class generated from style,
    size and shape. *)
Theorem override_class_by_component
        (field : FormField.t) (button : CustomButton.t) (c c' : pyval) :
  dict_wf (FormField.additional_attrs field) ->
  dict_get "cls" (FormField.additional_attrs field) = Some c ->
  dict_wf (CustomButton.additional_attrs button) ->
  dict_get "cls" (CustomButton.additional_attrs button) = Some c' ->
  attr "cls" (input_of (fst (FloatingLabelForm.floating_input field)))
  = Some (PyStr (strip (FloatingLabelForm.default_cls ++ " " ++ fmt c)))
  /\ (exists n : node,
         CustomButton.__call__ button = Returned n
         /\ attr "cls" n = Some c').
Proof.
  intros Wf Ef Wb Eb. split.
  - rewrite floating_input_cls by assumption.
    unfold dict_pop. now rewrite Ef.
  - destruct (call_returned button) as [g Eg]. rewrite Eg.
    eexists. split; [reflexivity |].
    unfold attr. cbn [kwargs].
    rewrite dict_get_set_hx_other by apply cls_not_hx.
    rewrite dict_get_update by assumption.
    now rewrite Eb.
Qed.

Lemma override_class_by_component_witness :
  attr "cls" (input_of (fst (FloatingLabelForm.floating_input styled_field)))
  = Some (PyStr (strip (FloatingLabelForm.default_cls ++ " " ++ "extra")))
  /\ (exists n : node,
         CustomButton.__call__ green_pill_button = Returned n
         /\ attr "cls" n = Some (PyStr "extra")).
Proof.
  exact (override_class_by_component styled_field green_pill_button
           (PyStr "extra") (PyStr "extra")
           (dict_wf_one "cls" (PyStr "extra")) eq_refl
           (dict_wf_one "cls" (PyStr "extra")) eq_refl).
Defined.

(* ================================================================= *)
(** ** The order of the merge (buttons.py, floating_form.py) *)

Section SetCommutes.
Context {V : Type}.
Implicit Types (d : dict V) (k : string) (v : V).

(** Writing an existing key and writing another key commute. *)
Lemma dict_set_comm k1 k2 v1 v2 d :
  k1 <> k2 -> In k1 (keys d) ->
  dict_set k1 v1 (dict_set k2 v2 d) = dict_set k2 v2 (dict_set k1 v1 d).
Proof.
  intros N. induction d as [|[k v] r IH]; intros H; [destruct H |].
  cbn [dict_set].
  destruct (String.eqb k2 k) eqn:E2; destruct (String.eqb k1 k) eqn:E1;
    cbn [dict_set]; rewrite ?E1, ?E2; try reflexivity.
  - apply String.eqb_eq in E1, E2. congruence.
  - f_equal. apply IH. destruct H as [H | H]; [| exact H].
    simpl in H. apply String.eqb_neq in E1. congruence.
Qed.

Lemma dict_set_set k v1 v2 d :
  dict_set k v1 (dict_set k v2 d) = dict_set k v1 d.
Proof.
  induction d as [|[k' v'] r IH]; cbn [dict_set].
  - now rewrite String.eqb_refl.
  - destruct (String.eqb k k') eqn:E; cbn [dict_set]; rewrite E; congruence.
Qed.

Lemma In_keys_set k k' v d : In k (keys d) -> In k (keys (dict_set k' v d)).
Proof.
  rewrite keys_set. destruct (dict_mem k' d); [auto |].
  intros H. apply in_or_app. now left.
Qed.

Lemma dict_set_update_comm k v d o :
  In k (keys d) -> ~ In k (keys o) ->
  dict_set k v (dict_update d o) = dict_update (dict_set k v d) o.
Proof.
  unfold dict_update. revert d.
  induction o as [|[k' v'] r IH]; intros d Hd Ho; [reflexivity |].
  cbn [fold_left fst snd]. simpl in Ho.
  rewrite IH; [| now apply In_keys_set | tauto].
  f_equal. apply dict_set_comm; [intros E; subst; tauto | assumption].
Qed.
End SetCommutes.

(** Without a class among the overrides, the worded merge writes the
    overrides one after the other. *)
Lemma spec_fold_no_cls (base acc overrides : dict pyval) :
  ~ In "cls" (keys overrides) ->
  fold_left (spec_override base) overrides acc = dict_update acc overrides.
Proof.
  unfold dict_update. revert acc.
  induction overrides as [|[k v] r IH]; intros acc H; [reflexivity |].
  cbn [fold_left]. simpl in H. rewrite IH by tauto.
  unfold spec_override. cbn [fst snd].
  destruct (String.eqb k "cls") eqn:E; [| reflexivity].
  apply String.eqb_eq in E. subst. tauto.
Qed.

(** With a class among the overrides and in [base], the worded merge
    writes the joined class and then the other overrides. *)
Lemma spec_fold_cls (base acc overrides : dict pyval) (b c : pyval) :
  dict_wf overrides ->
  dict_get "cls" base = Some b ->
  dict_get "cls" overrides = Some c ->
  In "cls" (keys acc) ->
  fold_left (spec_override base) overrides acc
  = dict_update (dict_set "cls" (PyStr (strip (fmt b ++ " " ++ fmt c))) acc)
                (dict_remove "cls" overrides).
Proof.
  intros W Hb. revert acc. unfold dict_wf in W.
  induction overrides as [|[k v] r IH]; intros acc Hc Ha; [discriminate Hc |].
  inversion W as [|? ? Hnin Hr]; subst.
  cbn [fold_left dict_remove]. cbn [dict_get] in Hc.
  destruct (String.eqb "cls" k) eqn:E.
  - apply String.eqb_eq in E. subst k. injection Hc as ->.
    rewrite spec_fold_no_cls by assumption.
    unfold spec_override. cbn [fst snd]. rewrite Hb. reflexivity.
  - assert (N : k <> "cls") by (apply String.eqb_neq in E; congruence).
    rewrite IH; [| assumption | assumption | ].
    + unfold spec_override. cbn [fst snd].
      apply String.eqb_neq in N. rewrite N.
      unfold dict_update. cbn [fold_left fst snd]. f_equal.
      apply dict_set_comm; [| assumption].
      apply String.eqb_neq in E. exact E.
    + unfold spec_override. cbn [fst snd].
      apply String.eqb_neq in N. rewrite N. now apply In_keys_set.
Qed.

Lemma default_cls_clean :
  strip (FloatingLabelForm.default_cls ++ " " ++ "") = FloatingLabelForm.default_cls.
Proof. reflexivity. Qed.

Lemma In_cls_keys_set_hx (attrs : dict pyval) (htmx : dict string) :
  In "cls" (keys attrs) -> In "cls" (keys (set_hx attrs htmx)).
Proof.
  unfold set_hx. revert attrs.
  induction htmx as [|[k v] r IH]; intros attrs H; [exact H |].
  cbn [fold_left]. apply IH. now apply In_keys_set.
Qed.

Lemma dict_set_cls_set_hx (x : pyval) (attrs : dict pyval) (htmx : dict string) :
  In "cls" (keys attrs) ->
  dict_set "cls" x (set_hx attrs htmx) = set_hx (dict_set "cls" x attrs) htmx.
Proof.
  intros H. rewrite !set_hx_update. apply dict_set_update_comm; [assumption |].
  rewrite keys_hx_entries, in_map_iff. intros [verb [E _]].
  now apply (cls_not_hx verb).
Qed.

(** For a form field, the attributes of the rendered input are the merge
    as the specification words it, of the field's base attributes, its
    HTMX attributes and its additional attributes. *)
Lemma floating_input_is_spec_merge (field : FormField.t) :
  dict_wf (FormField.additional_attrs field) ->
  dict_wf (FormField.htmx field) ->
  fst (FloatingLabelForm.input_attrs field)
  = spec_merge (field_base field) (FormField.htmx field)
               (FormField.additional_attrs field).
Proof.
  intros Wa Wh.
  pose proof (input_attrs_unfold field) as U. cbv zeta in U. rewrite U.
  cbn [fst]. unfold spec_merge.
  rewrite (hx_dict_entries _ Wh), <- set_hx_update.
  assert (Hb : In "cls" (keys (field_base field))).
  { unfold field_base, FloatingLabelForm.input_attrs0. simpl. tauto. }
  unfold dict_pop.
  destruct (dict_get "cls" (FormField.additional_attrs field)) as [c|] eqn:E;
    cbn [fst snd].
  - rewrite (spec_fold_cls _ _ _ (PyStr FloatingLabelForm.default_cls) c);
      [| assumption | reflexivity | assumption | now apply In_cls_keys_set_hx].
    f_equal. rewrite dict_set_cls_set_hx by assumption.
    unfold field_base. now rewrite dict_set_set.
  - rewrite spec_fold_no_cls by now apply dict_get_none.
    cbn [fmt]. rewrite default_cls_clean. reflexivity.
Qed.

(** C1, counterexample.  For [colliding_button] the override ["hx_get"]
    collides with the rewritten verb [get]: the button's final value is the
    behavioural one, ["/a"], and the override's own key ["id"] comes before
    the behavioural key ["hx_target"]; the merge as worded gives ["/b"]
    and puts ["hx_target"] before ["id"]. *)
Lemma button_writes_behavioral_last :
  exists base attrs : dict pyval,
    CustomButton.base_attrs colliding_button = Returned base
    /\ CustomButton.attrs colliding_button = Returned attrs
    /\ dict_get "hx_get" (CustomButton.additional_attrs colliding_button)
       = Some (PyStr "/b")
    /\ dict_get "hx_get" attrs = Some (PyStr "/a")
    /\ keys attrs = ["type"; "cls"; "hx_get"; "id"; "hx_target"]
    /\ dict_get "hx_get"
         (spec_merge base (CustomButton.htmx colliding_button)
                     (CustomButton.additional_attrs colliding_button))
       = Some (PyStr "/b")
    /\ keys (spec_merge base (CustomButton.htmx colliding_button)
                        (CustomButton.additional_attrs colliding_button))
       = ["type"; "cls"; "hx_get"; "hx_target"; "id"].
Proof.
  do 2 eexists.
  split; [vm_compute; reflexivity |].
  split; [vm_compute; reflexivity |].
  repeat split.
Qed.

(** C1, as the code has it.  For a form field the merge is the one
    described: base, then the rewritten behavioural entries, then the
    overrides; an override other than the class determines the final
    value of its key, a behavioural entry not overridden keeps its value,
    a key touched by neither keeps its base value, and new keys appear in
    the order base, behavioural, overrides.  For a button the overrides
    are written before the behavioural entries: a behavioural entry
    always determines the final value of its rewritten key, an override
    determines the final value of any other key, and new keys appear in
    the order base, overrides, behavioural. *)
Theorem merge_order_by_component (field : FormField.t) (button : CustomButton.t) :
  dict_wf (FormField.additional_attrs field) ->
  dict_wf (FormField.htmx field) ->
  dict_wf (CustomButton.additional_attrs button) ->
  dict_wf (CustomButton.htmx button) ->
  let fa := FormField.additional_attrs field in
  let fh := FormField.htmx field in
  let popped := dict_pop "cls" (PyStr "") fa in
  let base :=
    dict_set "cls"
      (PyStr (strip (FloatingLabelForm.default_cls ++ " " ++ fmt (fst popped))))
      (FloatingLabelForm.input_attrs0 field) in
  let overrides := snd popped in
  let attrs := fst (FloatingLabelForm.input_attrs field) in
  let ba := CustomButton.additional_attrs button in
  let bh := CustomButton.htmx button in
  (attrs = dict_update (set_hx base fh) overrides
   /\ attrs = spec_merge (field_base field) fh fa
   /\ (forall k v, k <> "cls" -> dict_get k fa = Some v -> dict_get k attrs = Some v)
   /\ (forall verb v,
          dict_get verb fh = Some v -> dict_get (hx_key verb) fa = None ->
          dict_get (hx_key verb) attrs = Some (PyStr v))
   /\ (forall k,
          dict_get k overrides = None -> (forall verb, k <> hx_key verb) ->
          dict_get k attrs = dict_get k base)
   /\ keys attrs
      = (keys base
         ++ filter (fun k => negb (dict_mem k base)) (map hx_key (keys fh))
         ++ filter (fun k => negb (dict_mem k (set_hx base fh))) (keys overrides))%list)
  /\ (exists bbase battrs : dict pyval,
         CustomButton.base_attrs button = Returned bbase
         /\ CustomButton.attrs button = Returned battrs
         /\ battrs = set_hx (dict_update bbase ba) bh
         /\ (forall verb v,
                dict_get verb bh = Some v ->
                dict_get (hx_key verb) battrs = Some (PyStr v))
         /\ (forall k v,
                dict_get k ba = Some v ->
                (forall verb, In verb (keys bh) -> k <> hx_key verb) ->
                dict_get k battrs = Some v)
         /\ keys battrs
            = (keys bbase
               ++ filter (fun k => negb (dict_mem k bbase)) (keys ba)
               ++ filter (fun k => negb (dict_mem k (dict_update bbase ba)))
                         (map hx_key (keys bh)))%list).
Proof.
  intros Wfa Wfh Wba Wbh fa fh popped base overrides attrs ba bh.
  assert (Wo : dict_wf overrides) by now apply dict_wf_popped.
  assert (Ea : attrs = dict_update (set_hx base fh) overrides).
  { subst attrs. pose proof (input_attrs_unfold field) as U. cbv zeta in U.
    rewrite U. cbn [fst]. fold fa fh popped base overrides.
    now rewrite (hx_dict_entries fh Wfh), <- set_hx_update. }
  split; [split; [exact Ea |] |].
  - split; [now apply floating_input_is_spec_merge |].
    rewrite Ea. repeat split.
    + intros k v N Hk.
      rewrite dict_get_update by assumption.
      subst overrides popped. rewrite dict_get_other_popped by assumption.
      fold fa. now rewrite Hk.
    + intros verb v Hv Hn.
      rewrite dict_get_update by assumption.
      subst overrides popped.
      rewrite dict_get_other_popped
        by (intros E; symmetry in E; exact (cls_not_hx verb E)).
      fold fa. rewrite Hn.
      rewrite dict_get_set_hx by assumption.
      now rewrite dict_get_hx_entries, Hv.
    + intros k Hk N.
      rewrite dict_get_update by assumption. rewrite Hk.
      now apply dict_get_set_hx_other.
    + rewrite keys_update by assumption.
      rewrite set_hx_update at 1.
      rewrite keys_update by now apply dict_wf_hx_entries.
      now rewrite keys_hx_entries, <- app_assoc.
  - destruct (base_attrs_returned button) as [c Ec].
    exists [("type", PyStr (CustomButton.type button)); ("cls", PyStr c)].
    exists (set_hx
              (dict_update
                 [("type", PyStr (CustomButton.type button)); ("cls", PyStr c)] ba)
              bh).
    split; [exact Ec |].
    split; [unfold CustomButton.attrs; now rewrite Ec |].
    split; [reflexivity |].
    repeat split.
    + intros verb v Hv.
      rewrite dict_get_set_hx by assumption.
      now rewrite dict_get_hx_entries, Hv.
    + intros k v Hk N.
      rewrite dict_get_set_hx by assumption.
      rewrite dict_get_hx_entries_other by exact N.
      rewrite dict_get_update by assumption. now rewrite Hk.
    + rewrite set_hx_update.
      rewrite keys_update by now apply dict_wf_hx_entries.
      rewrite keys_update by assumption.
      now rewrite keys_hx_entries, <- app_assoc.
Qed.

Lemma username_field_attrs_wf : dict_wf (FormField.additional_attrs username_field).
Proof.
  unfold dict_wf. simpl. repeat constructor; simpl; intuition discriminate.
Qed.

Lemma username_field_htmx_wf : dict_wf (FormField.htmx username_field).
Proof.
  unfold dict_wf. simpl. repeat constructor; simpl; intuition discriminate.
Qed.

Lemma colliding_button_attrs_wf :
  dict_wf (CustomButton.additional_attrs colliding_button).
Proof.
  unfold dict_wf. simpl. repeat constructor; simpl; intuition discriminate.
Qed.

Lemma colliding_button_htmx_wf : dict_wf (CustomButton.htmx colliding_button).
Proof.
  unfold dict_wf. simpl. repeat constructor; simpl; intuition discriminate.
Qed.

Lemma merge_order_by_component_witness :
  dict_get "type" (fst (FloatingLabelForm.input_attrs username_field))
  = Some (PyStr "email")
  /\ (exists battrs : dict pyval,
         CustomButton.attrs colliding_button = Returned battrs
         /\ dict_get "hx_get" battrs = Some (PyStr "/a")).
Proof.
  destruct (merge_order_by_component username_field colliding_button
              username_field_attrs_wf username_field_htmx_wf
              colliding_button_attrs_wf colliding_button_htmx_wf)
    as [[_ [_ [F _]]] [bbase [battrs [_ [E [_ [B _]]]]]]].
  split.
  - apply F; [discriminate | reflexivity].
  - exists battrs. split; [exact E |]. exact (B "get" "/a" eq_refl).
Defined.


(* ================================================================= *)
(** ** Further properties: buttons *)




Lemma dict_wf_two {V : Type} (k1 k2 : string) (v1 v2 : V) :
  k1 <> k2 -> dict_wf [(k1, v1); (k2, v2)].
Proof.
  intros N. unfold dict_wf. simpl. repeat constructor; simpl; intuition.
Qed.


(** X2. The [type] and [cls] of a rendered button: each is the entry of
    the additional attributes under that key when there is one, and
    otherwise the button's own [type], respectively the class made of the
    style class, the size class, ["font-medium"], the shape class
    (["rounded-full"] for a pill, ["rounded-lg"] otherwise),
    ["text-center"] and ["me-2 mb-2"], separated by single spaces.  The
    HTMX attributes never change either. *)
Theorem button_type_and_class (self : CustomButton.t) :
  dict_wf (CustomButton.additional_attrs self) ->
  exists (sc zc : string) (n : node),
    CustomButton.style_classes self = Returned sc
    /\ CustomButton.size_classes self = Returned zc
    /\ CustomButton.__call__ self = Returned n
    /\ attr "type" n
       = Some (match dict_get "type" (CustomButton.additional_attrs self) with
               | Some v => v
               | None => PyStr (CustomButton.type self)
               end)
    /\ attr "cls" n
       = Some (match dict_get "cls" (CustomButton.additional_attrs self) with
               | Some v => v
               | None =>
                   PyStr (sc ++ " " ++ zc ++ " font-medium "
                          ++ (if CustomButton.pill self
                              then "rounded-full" else "rounded-lg")
                          ++ " text-center me-2 mb-2")
               end).
Proof.
  intros W.
  unfold CustomButton.__call__, CustomButton.attrs, CustomButton.base_attrs,
    CustomButton.classes.
  destruct (CustomButton.style_classes self) as [sc|e] eqn:Es;
    [| unfold CustomButton.style_classes in Es; discriminate Es].
  destruct (CustomButton.size_classes self) as [zc|e] eqn:Ez;
    [| unfold CustomButton.size_classes in Ez; discriminate Ez].
  exists sc, zc. cbn [bind]. eexists.
  refine (conj eq_refl (conj eq_refl (conj eq_refl _))).
  unfold attr. cbn [kwargs]. split.
  - rewrite dict_get_set_hx_other by apply type_not_hx.
    rewrite dict_get_update by assumption.
    now destruct (dict_get "type" (CustomButton.additional_attrs self)).
  - rewrite dict_get_set_hx_other by apply cls_not_hx.
    rewrite dict_get_update by assumption.
    destruct (dict_get "cls" (CustomButton.additional_attrs self));
      [reflexivity |].
    cbn [dict_get String.eqb Ascii.eqb Bool.eqb].
    unfold join. cbn [String.concat].
    destruct (CustomButton.pill self); reflexivity.
Qed.

Lemma button_type_and_class_witness :
  exists n : node,
    CustomButton.__call__ colliding_button = Returned n
    /\ attr "type" n = Some (PyStr "button").
Proof.
  destruct (button_type_and_class colliding_button colliding_button_attrs_wf)
    as [sc [zc [n [_ [_ [E [T _]]]]]]].
  exists n. split; [exact E | exact T].
Defined.

(* ================================================================= *)
(** ** Further properties: form fields *)

Lemma input_attrs0_wf (field : FormField.t) :
  dict_wf (FloatingLabelForm.input_attrs0 field).
Proof.
  unfold dict_wf, FloatingLabelForm.input_attrs0. simpl.
  repeat constructor; simpl; intuition discriminate.
Qed.

Lemma input_attrs_wf (field : FormField.t) :
  dict_wf (fst (FloatingLabelForm.input_attrs field)).
Proof.
  pose proof (input_attrs_unfold field) as U. cbv zeta in U. rewrite U.
  cbn [fst]. do 2 apply dict_wf_update. apply dict_wf_set, input_attrs0_wf.
Qed.

(** A key that is neither the class nor a rewritten verb: the additional
    attributes decide it when they carry it, the generated entries
    otherwise. *)
Lemma input_attrs_get (field : FormField.t) (k : string) :
  field_wf field ->
  k <> "cls" -> (forall verb, k <> hx_key verb) ->
  dict_get k (fst (FloatingLabelForm.input_attrs field))
  = match dict_get k (FormField.additional_attrs field) with
    | Some v => Some v
    | None => dict_get k (FloatingLabelForm.input_attrs0 field)
    end.
Proof.
  intros W N Nh.
  pose proof (input_attrs_unfold field) as U. cbv zeta in U. rewrite U.
  cbn [fst].
  rewrite dict_get_update by now apply dict_wf_popped.
  rewrite dict_get_other_popped by assumption.
  destruct (dict_get k (FormField.additional_attrs field)); [reflexivity |].
  rewrite dict_get_update by apply dict_wf_hx_dict.
  rewrite dict_get_hx_dict_other by assumption.
  now apply dict_get_set_neq.
Qed.

Lemma floating_input_unfold (field : FormField.t) :
  FloatingLabelForm.floating_input field
  = (Elem "div"
       [ Elem "input" [] (fst (FloatingLabelForm.input_attrs field));
         label_of (fst (FloatingLabelForm.floating_input field));
         Elem "div" [] [("cls", PyStr "validation-message")] ]
       [("cls", PyStr "relative z-0 w-full mb-5 group")],
     FormField.with_additional_attrs field
       (snd (FloatingLabelForm.input_attrs field))).
Proof.
  unfold FloatingLabelForm.floating_input.
  destruct (FloatingLabelForm.input_attrs field). reflexivity.
Qed.

Lemma id_not_hx (verb : string) : "id" <> hx_key verb.
Proof. unfold hx_key. discriminate. Qed.

Lemma name_not_hx (verb : string) : "name" <> hx_key verb.
Proof. unfold hx_key. discriminate. Qed.

Lemma required_not_hx (verb : string) : "required" <> hx_key verb.
Proof. unfold hx_key. discriminate. Qed.

Lemma pattern_not_hx (verb : string) : "pattern" <> hx_key verb.
Proof. unfold hx_key. discriminate. Qed.

(** X3. A rendered field is a wrapper around exactly an input, a label
    and an empty [validation-message] container, in that order.  The
    label holds the field's label text and points to [floating_<name>].
    The input's [id] is that same [floating_<name>] unless the field's
    additional attributes carry an [id], which then is the input's [id]
    while the label still points to [floating_<name>]; the same holds
    for the input's [name]. *)
Theorem floating_input_structure (field : FormField.t) :
  field_wf field ->
  exists input label message : node,
    children_of (fst (FloatingLabelForm.floating_input field))
    = [input; label; message]
    /\ children_of label = [Text (FormField.label field)]
    /\ attr "fr" label = Some (PyStr ("floating_" ++ FormField.name field))
    /\ message = Elem "div" [] [("cls", PyStr "validation-message")]
    /\ attr "id" input
       = Some (match dict_get "id" (FormField.additional_attrs field) with
               | Some v => v
               | None => PyStr ("floating_" ++ FormField.name field)
               end)
    /\ attr "name" input
       = Some (match dict_get "name" (FormField.additional_attrs field) with
               | Some v => v
               | None => PyStr (FormField.name field)
               end).
Proof.
  intros W.
  exists (Elem "input" [] (fst (FloatingLabelForm.input_attrs field))).
  exists (label_of (fst (FloatingLabelForm.floating_input field))).
  eexists.
  split; [rewrite floating_input_unfold at 1; reflexivity |].
  split.
  { unfold FloatingLabelForm.floating_input.
    now destruct (FloatingLabelForm.input_attrs field). }
  split.
  { unfold FloatingLabelForm.floating_input.
    now destruct (FloatingLabelForm.input_attrs field). }
  split; [reflexivity |].
  unfold attr. cbn [kwargs]. split.
  - rewrite input_attrs_get;
      [| assumption | discriminate | apply id_not_hx].
    now destruct (dict_get "id" (FormField.additional_attrs field)).
  - rewrite input_attrs_get;
      [| assumption | discriminate | apply name_not_hx].
    now destruct (dict_get "name" (FormField.additional_attrs field)).
Qed.

Lemma styled_field_wf : field_wf styled_field.
Proof. apply dict_wf_one. Qed.

Lemma floating_input_structure_witness :
  exists input label message : node,
    children_of (fst (FloatingLabelForm.floating_input styled_field))
    = [input; label; message]
    /\ attr "fr" label = Some (PyStr "floating_email")
    /\ attr "id" input = Some (PyStr "floating_email").
Proof.
  destruct (floating_input_structure styled_field styled_field_wf)
    as [input [label [message [C [_ [F [_ [I _]]]]]]]].
  exists input, label, message. split; [exact C |]. split; [exact F | exact I].
Defined.

(** Reading a key in the attributes that reach the markup. *)
Lemma dict_get_present (k : string) (d : dict pyval) :
  dict_wf d ->
  dict_get k (present_attrs d)
  = match dict_get k d with
    | Some PyNone => None
    | other => other
    end.
Proof.
  unfold dict_wf. induction d as [|[k' v] r IH]; intros W; [reflexivity |].
  inversion W as [|? ? Hnin Hr]; subst.
  specialize (IH Hr). cbn [present_attrs filter snd dict_get].
  fold (present_attrs r).
  destruct (String.eqb k k') eqn:E.
  - apply String.eqb_eq in E. subst k'.
    apply dict_get_none in Hnin.
    destruct v; cbn [is_none negb dict_get].
    + rewrite IH, Hnin. reflexivity.
    + now rewrite String.eqb_refl.
  - destruct v; cbn [is_none negb dict_get]; [exact IH |].
    now rewrite E.
Qed.

(** X4. Whether the rendered input carries [required] and [pattern] in
    the markup, for a field whose additional attributes set neither:
    [required] is there, with the empty string, exactly when the field is
    required, and [pattern] is there, with the field's pattern, exactly
    when the field has one. *)
Theorem floating_input_optional_attrs (field : FormField.t) :
  field_wf field ->
  dict_get "required" (FormField.additional_attrs field) = None ->
  dict_get "pattern" (FormField.additional_attrs field) = None ->
  let markup :=
    present_attrs
      (kwargs (input_of (fst (FloatingLabelForm.floating_input field)))) in
  dict_get "required" markup
  = (if FormField.required field then Some (PyStr "") else None)
  /\ dict_get "pattern" markup
     = match FormField.pattern field with
       | PyNone => None
       | p => Some p
       end.
Proof.
  intros W Hr Hp markup. subst markup.
  rewrite floating_input_kwargs.
  rewrite !dict_get_present by apply input_attrs_wf.
  rewrite (input_attrs_get field "required");
    [| assumption | discriminate | apply required_not_hx].
  rewrite (input_attrs_get field "pattern");
    [| assumption | discriminate | apply pattern_not_hx].
  rewrite Hr, Hp.
  unfold FloatingLabelForm.input_attrs0.
  cbn [dict_get String.eqb Ascii.eqb Bool.eqb].
  split.
  - now destruct (FormField.required field).
  - now destruct (FormField.pattern field).
Qed.

(** An optional field with a pattern. *)
Lemma floating_input_optional_attrs_witness :
  let field :=
    FormField.mk "phone" "Phone number (123-456-7890)" "tel"
      (PyStr "[0-9]{3}-[0-9]{3}-[0-9]{4}") false " " [] [] in
  let markup :=
    present_attrs
      (kwargs (input_of (fst (FloatingLabelForm.floating_input field)))) in
  dict_get "required" markup = None
  /\ dict_get "pattern" markup = Some (PyStr "[0-9]{3}-[0-9]{3}-[0-9]{4}").
Proof.
  exact (floating_input_optional_attrs
           (FormField.mk "phone" "Phone number (123-456-7890)" "tel"
              (PyStr "[0-9]{3}-[0-9]{3}-[0-9]{4}") false " " [] [])
           (NoDup_nil string) eq_refl eq_refl).
Defined.

Lemma with_additional_attrs_same (field : FormField.t) :
  FormField.with_additional_attrs field (FormField.additional_attrs field) = field.
Proof. now destruct field. Qed.

Lemma input_attrs_snd (field : FormField.t) :
  snd (FloatingLabelForm.input_attrs field)
  = snd (dict_pop "cls" (PyStr "") (FormField.additional_attrs field)).
Proof.
  pose proof (input_attrs_unfold field) as U. cbv zeta in U. now rewrite U.
Qed.

Lemma floating_input_snd (field : FormField.t) :
  snd (FloatingLabelForm.floating_input field)
  = FormField.with_additional_attrs field
      (snd (dict_pop "cls" (PyStr "") (FormField.additional_attrs field))).
Proof.
  rewrite floating_input_unfold. cbn [snd]. now rewrite input_attrs_snd.
Qed.

Lemma floating_input_no_cls_snd (field : FormField.t) :
  no_cls field -> snd (FloatingLabelForm.floating_input field) = field.
Proof.
  intros H. rewrite floating_input_snd. unfold dict_pop.
  unfold no_cls in H. rewrite H. cbn [snd].
  apply with_additional_attrs_same.
Qed.

(** X5. Rendering a field whose additional attributes carry no class
    leaves the field object as it was, and the input's class is the
    fixed floating-label class. *)
Theorem floating_input_without_class (field : FormField.t) :
  field_wf field ->
  no_cls field ->
  snd (FloatingLabelForm.floating_input field) = field
  /\ attr "cls" (input_of (fst (FloatingLabelForm.floating_input field)))
     = Some (PyStr FloatingLabelForm.default_cls).
Proof.
  intros W H. split; [now apply floating_input_no_cls_snd |].
  rewrite floating_input_cls by assumption.
  unfold dict_pop. unfold no_cls in H. rewrite H. reflexivity.
Qed.

Lemma floating_input_without_class_witness :
  snd (FloatingLabelForm.floating_input username_field) = username_field
  /\ attr "cls" (input_of (fst (FloatingLabelForm.floating_input username_field)))
     = Some (PyStr FloatingLabelForm.default_cls).
Proof.
  exact (floating_input_without_class username_field
           username_field_attrs_wf eq_refl).
Defined.

Lemma floating_input_settled (field : FormField.t) :
  field_wf field ->
  field_wf (snd (FloatingLabelForm.floating_input field))
  /\ no_cls (snd (FloatingLabelForm.floating_input field)).
Proof.
  intros W. rewrite floating_input_snd. unfold field_wf, no_cls.
  destruct field; cbn [FormField.with_additional_attrs FormField.additional_attrs].
  split; [now apply dict_wf_popped | now apply dict_get_cls_popped].
Qed.

(** X6. After one rendering a field carries no class among its
    additional attributes, and every other additional attribute is as
    before; rendering the field again no longer changes it, and the
    input then has the fixed floating-label class alone. *)
Theorem floating_input_settles (field : FormField.t) :
  field_wf field ->
  let field1 := snd (FloatingLabelForm.floating_input field) in
  dict_get "cls" (FormField.additional_attrs field1) = None
  /\ (forall k, k <> "cls" ->
        dict_get k (FormField.additional_attrs field1)
        = dict_get k (FormField.additional_attrs field))
  /\ snd (FloatingLabelForm.floating_input field1) = field1
  /\ attr "cls" (input_of (fst (FloatingLabelForm.floating_input field1)))
     = Some (PyStr FloatingLabelForm.default_cls).
Proof.
  intros W field1.
  destruct (floating_input_settled field W) as [W1 N1]. fold field1 in W1, N1.
  split; [exact N1 |]. split.
  - intros k N. subst field1. rewrite floating_input_snd.
    destruct field;
      cbn [FormField.with_additional_attrs FormField.additional_attrs].
    now apply dict_get_other_popped.
  - split; [now apply floating_input_no_cls_snd |].
    rewrite floating_input_cls by assumption.
    unfold dict_pop. unfold no_cls in N1. now rewrite N1.
Qed.

Lemma floating_input_settles_witness :
  let field1 := snd (FloatingLabelForm.floating_input styled_field) in
  dict_get "cls" (FormField.additional_attrs field1) = None
  /\ snd (FloatingLabelForm.floating_input field1) = field1.
Proof.
  destruct (floating_input_settles styled_field styled_field_wf)
    as [A [_ [B _]]].
  split; [exact A | exact B].
Defined.

(* ================================================================= *)
(** ** Further properties: form sections *)

Lemma floating_inputs_map (fields : list FormField.t) :
  FloatingLabelForm.floating_inputs fields
  = (map (fun f => fst (FloatingLabelForm.floating_input f)) fields,
     map (fun f => snd (FloatingLabelForm.floating_input f)) fields).
Proof.
  induction fields as [|f r IH]; [reflexivity |].
  cbn [FloatingLabelForm.floating_inputs map]. rewrite IH.
  now destruct (FloatingLabelForm.floating_input f).
Qed.



Lemma section_ok_double (section : FormSection.t) :
  FormSection.layout section = "double" ->
  section_ok section = (2 <=? length (FormSection.fields section))%nat.
Proof. intros L. unfold section_ok. now rewrite L. Qed.

(** Whether a section renders is decided by [section_ok]. *)
Lemma render_section_fst (section : FormSection.t) :
  if section_ok section
  then exists n, fst (FloatingLabelForm.render_section section) = Returned n
  else fst (FloatingLabelForm.render_section section) = Raised IndexError.
Proof.
  unfold section_ok, FloatingLabelForm.render_section.
  destruct (String.eqb (FormSection.layout section) "double").
  - destruct (FormSection.fields section) as [|f0 [|f1 rest]];
      cbn [length Nat.leb].
    + reflexivity.
    + now destruct (FloatingLabelForm.floating_input f0).
    + destruct (FloatingLabelForm.floating_input f0).
      destruct (FloatingLabelForm.floating_input f1).
      eexists. reflexivity.
  - destruct (FloatingLabelForm.floating_inputs (FormSection.fields section)).
    eexists. reflexivity.
Qed.

(** The section object a rendering leaves. *)
Lemma render_section_snd (section : FormSection.t) :
  snd (FloatingLabelForm.render_section section)
  = FormSection.with_fields section
      (if String.eqb (FormSection.layout section) "double"
       then match FormSection.fields section with
            | f0 :: f1 :: rest =>
                snd (FloatingLabelForm.floating_input f0)
                :: snd (FloatingLabelForm.floating_input f1) :: rest
            | [f0] => [snd (FloatingLabelForm.floating_input f0)]
            | [] => []
            end
       else map (fun f => snd (FloatingLabelForm.floating_input f))
                (FormSection.fields section)).
Proof.
  unfold FloatingLabelForm.render_section.
  destruct (String.eqb (FormSection.layout section) "double").
  - destruct section as [fields layout]. cbn [FormSection.fields].
    destruct fields as [|f0 [|f1 rest]].
    + reflexivity.
    + now destruct (FloatingLabelForm.floating_input f0).
    + destruct (FloatingLabelForm.floating_input f0).
      now destruct (FloatingLabelForm.floating_input f1).
  - now rewrite floating_inputs_map.
Qed.

Lemma floating_input_snd_idem (field : FormField.t) :
  field_wf field ->
  snd (FloatingLabelForm.floating_input
         (snd (FloatingLabelForm.floating_input field)))
  = snd (FloatingLabelForm.floating_input field).
Proof.
  intros W. apply floating_input_no_cls_snd.
  now apply floating_input_settled.
Qed.

Lemma render_section_settles (section : FormSection.t) :
  section_wf section ->
  let section1 := snd (FloatingLabelForm.render_section section) in
  section_wf section1
  /\ section_ok section1 = section_ok section
  /\ snd (FloatingLabelForm.render_section section1) = section1.
Proof.
  intros W section1. subst section1.
  rewrite (render_section_snd (snd _)). rewrite render_section_snd.
  destruct section as [fields layout].
  unfold section_wf, section_ok in *.
  cbn [FormSection.fields FormSection.layout FormSection.with_fields] in *.
  destruct (String.eqb layout "double").
  - destruct fields as [|f0 [|f1 rest]].
    + repeat split. constructor.
    + inversion W as [|? ? W0 _]; subst.
      repeat split.
      * constructor; [| constructor]. now apply floating_input_settled.
      * now rewrite floating_input_snd_idem.
    + inversion W as [|? ? W0 Wr]; subst.
      inversion Wr as [|? ? W1 Wr']; subst.
      repeat split.
      * constructor; [now apply floating_input_settled |].
        constructor; [now apply floating_input_settled | assumption].
      * now rewrite !floating_input_snd_idem.
  - repeat split.
    + apply Forall_map. eapply Forall_impl; [| exact W].
      intros f Wf. now apply floating_input_settled.
    + unfold FormSection.with_fields. cbn [FormSection.layout].
      f_equal. rewrite map_map. apply map_ext_in.
      intros f Hf. apply floating_input_snd_idem.
      rewrite Forall_forall in W. now apply W.
Qed.

Lemma render_sections_fst (sections : list FormSection.t) :
  if forallb section_ok sections
  then exists ns,
      fst (FloatingLabelForm.render_sections sections) = Returned ns
      /\ Forall2 (fun s n => fst (FloatingLabelForm.render_section s) = Returned n)
                 sections ns
  else fst (FloatingLabelForm.render_sections sections) = Raised IndexError.
Proof.
  induction sections as [|s rest IH]; cbn [forallb].
  - exists []. split; [reflexivity | constructor].
  - cbn [FloatingLabelForm.render_sections].
    pose proof (render_section_fst s) as Hs.
    destruct (FloatingLabelForm.render_section s) as [r s'] eqn:Es.
    cbn [fst] in Hs.
    destruct (section_ok s); cbn [andb].
    + destruct Hs as [n ->].
      destruct (FloatingLabelForm.render_sections rest) as [rs rest'] eqn:Er.
      cbn [fst] in IH.
      destruct (forallb section_ok rest).
      * destruct IH as [ns [-> F]]. exists (n :: ns).
        split; [reflexivity |]. constructor; [| exact F].
        now rewrite Es.
      * now rewrite IH.
    + now rewrite Hs.
Qed.

Lemma render_sections_settles (sections : list FormSection.t) :
  Forall section_wf sections ->
  let sections1 := snd (FloatingLabelForm.render_sections sections) in
  Forall section_wf sections1
  /\ forallb section_ok sections1 = forallb section_ok sections
  /\ snd (FloatingLabelForm.render_sections sections1) = sections1.
Proof.
  induction sections as [|s rest IH]; intros W.
  - repeat split. constructor.
  - inversion W as [|? ? Ws Wr]; subst.
    specialize (IH Wr). cbv zeta in IH. destruct IH as [IH1 [IH2 IH3]].
    destruct (render_section_settles s Ws) as [S1 [S2 S3]].
    pose proof (render_section_fst s) as Hs.
    pose proof (render_section_fst (snd (FloatingLabelForm.render_section s)))
      as Hs1.
    rewrite S2 in Hs1.
    cbn [FloatingLabelForm.render_sections].
    destruct (FloatingLabelForm.render_section s) as [r s1] eqn:Es.
    cbn [fst snd] in *.
    destruct (section_ok s) eqn:Eok.
    + destruct Hs as [n ->]. destruct Hs1 as [n1 Hn1].
      assert (E : snd (match FloatingLabelForm.render_sections rest with
                       | (Returned ns, rest') => (Returned (n :: ns), s1 :: rest')
                       | (Raised e, rest') => (Raised e, s1 :: rest')
                       end)
                  = s1 :: snd (FloatingLabelForm.render_sections rest)).
      { destruct (FloatingLabelForm.render_sections rest) as [[ns|e] rest'];
          reflexivity. }
      rewrite E.
      split; [now constructor |].
      split; [cbn [forallb]; now rewrite S2, IH2, Eok |].
      cbn [FloatingLabelForm.render_sections].
      destruct (FloatingLabelForm.render_section s1) as [r1 s2] eqn:Es1.
      cbn [fst snd] in *. subst r1 s2.
      destruct (FloatingLabelForm.render_sections
                  (snd (FloatingLabelForm.render_sections rest)))
        as [[ns|e] rest''] eqn:Er; cbn [snd] in *; now subst.
    + rewrite Hs. cbn [snd].
      split; [now constructor |].
      split; [cbn [forallb]; now rewrite S2, Eok |].
      cbn [FloatingLabelForm.render_sections].
      destruct (FloatingLabelForm.render_section s1) as [r1 s2] eqn:Es1.
      cbn [fst snd] in *. subst r1 s2. reflexivity.
Qed.

(* ================================================================= *)
(** ** Further properties: whole forms *)

Section UpdateTwice.
Context {V : Type}.
Implicit Types (d o : dict V) (k : string) (v : V).

Lemma dict_set_same k v d : dict_get k d = Some v -> dict_set k v d = d.
Proof.
  induction d as [|[k' v'] r IH]; cbn [dict_get dict_set]; [discriminate |].
  destruct (String.eqb k k') eqn:E.
  - intros H. injection H as ->. reflexivity.
  - intros H. now rewrite IH.
Qed.

Lemma dict_get_In k v o : dict_wf o -> In (k, v) o -> dict_get k o = Some v.
Proof.
  unfold dict_wf. induction o as [|[k' v'] r IH]; intros W H; [destruct H |].
  inversion W as [|? ? Hnin Hr]; subst. cbn [dict_get].
  destruct H as [H | H].
  - injection H as -> ->. now rewrite String.eqb_refl.
  - destruct (String.eqb k k') eqn:E; [| now apply IH].
    apply String.eqb_eq in E. subst k'. exfalso. apply Hnin.
    change k with (fst (k, v)). now apply in_map.
Qed.

Lemma dict_update_absorbed d o :
  (forall k v, In (k, v) o -> dict_get k d = Some v) -> dict_update d o = d.
Proof.
  unfold dict_update. induction o as [|[k v] r IH]; intros H; [reflexivity |].
  cbn [fold_left fst snd].
  rewrite dict_set_same by (apply H; now left).
  apply IH. intros k' v' Hin. apply H. now right.
Qed.

(** Updating twice with the same dictionary is updating once. *)
Lemma dict_update_idem d o :
  dict_wf o -> dict_update (dict_update d o) o = dict_update d o.
Proof.
  intros W. apply dict_update_absorbed. intros k v Hin.
  rewrite dict_get_update by assumption.
  now rewrite (dict_get_In k v o W Hin).
Qed.

End UpdateTwice.

Lemma as_submit_idem (htmx : dict string) (button : CustomButton.t) :
  dict_wf htmx -> as_submit htmx (as_submit htmx button) = as_submit htmx button.
Proof.
  intros W. unfold as_submit.
  cbn [CustomButton.label CustomButton.style CustomButton.size CustomButton.pill
       CustomButton.htmx CustomButton.additional_attrs].
  now rewrite dict_update_idem.
Qed.

Lemma render_submit_button_unfold (self : FloatingLabelForm.t) :
  FloatingLabelForm.render_submit_button self
  = (fst (FloatingLabelForm.render_submit_button self),
     FloatingLabelForm.with_custom_submit_button self
       (option_map (as_submit (FloatingLabelForm.htmx self))
                   (FloatingLabelForm.custom_submit_button self))).
Proof.
  unfold FloatingLabelForm.render_submit_button.
  destruct self as [ss sl c h [b|]]; reflexivity.
Qed.

Lemma render_submit_button_fst (self : FloatingLabelForm.t) :
  exists b, fst (FloatingLabelForm.render_submit_button self) = Returned b.
Proof.
  unfold FloatingLabelForm.render_submit_button.
  destruct (FloatingLabelForm.custom_submit_button self) as [button|];
    cbn [fst]; [| eexists; reflexivity].
  match goal with |- context [CustomButton.__call__ ?b] =>
    destruct (call_returned b) as [c E]; rewrite E end.
  eexists. reflexivity.
Qed.

Lemma render_submit_button_with_sections
      (self : FloatingLabelForm.t) (ss : list FormSection.t) :
  fst (FloatingLabelForm.render_submit_button
         (FloatingLabelForm.with_sections self ss))
  = fst (FloatingLabelForm.render_submit_button self).
Proof.
  unfold FloatingLabelForm.render_submit_button.
  destruct self as [ss0 sl c h [b|]]; reflexivity.
Qed.


(** The outcome of rendering a form, from the outcomes of its parts. *)
Lemma xt_fst (self : FloatingLabelForm.t) :
  fst (FloatingLabelForm.__xt__ self)
  = match fst (FloatingLabelForm.render_sections
                 (FloatingLabelForm.sections self)) with
    | Raised e => Raised e
    | Returned ns =>
        match fst (FloatingLabelForm.render_submit_button self) with
        | Raised e => Raised e
        | Returned b =>
            Returned
              (Elem "form" (ns ++ [b])
                 (dict_update [("cls", PyStr (FloatingLabelForm.cls self))]
                              (hx_dict (FloatingLabelForm.htmx self))))
        end
    end.
Proof.
  unfold FloatingLabelForm.__xt__.
  destruct (FloatingLabelForm.render_sections (FloatingLabelForm.sections self))
    as [[ns|e] ss'] eqn:Es; cbn [fst]; [| reflexivity].
  rewrite <- (render_submit_button_with_sections self ss').
  destruct (FloatingLabelForm.render_submit_button
              (FloatingLabelForm.with_sections self ss')) as [[b|e] self'];
    reflexivity.
Qed.

(** The form object a rendering leaves. *)
Lemma xt_snd (self : FloatingLabelForm.t) :
  snd (FloatingLabelForm.__xt__ self)
  = let sections1 :=
      snd (FloatingLabelForm.render_sections (FloatingLabelForm.sections self)) in
    if forallb section_ok (FloatingLabelForm.sections self)
    then FloatingLabelForm.mk sections1
           (FloatingLabelForm.submit_label self) (FloatingLabelForm.cls self)
           (FloatingLabelForm.htmx self)
           (option_map (as_submit (FloatingLabelForm.htmx self))
                       (FloatingLabelForm.custom_submit_button self))
    else FloatingLabelForm.with_sections self sections1.
Proof.
  cbv zeta. unfold FloatingLabelForm.__xt__.
  pose proof (render_sections_fst (FloatingLabelForm.sections self)) as H.
  destruct (FloatingLabelForm.render_sections (FloatingLabelForm.sections self))
    as [r ss'] eqn:Es. cbn [fst snd] in *.
  destruct (forallb section_ok (FloatingLabelForm.sections self)).
  - destruct H as [ns [-> _]].
    rewrite render_submit_button_unfold.
    destruct (render_submit_button_fst
                (FloatingLabelForm.with_sections self ss')) as [b ->].
    cbn [snd]. now destruct self.
  - now rewrite H.
Qed.


Lemma register_form_htmx_wf : dict_wf (FloatingLabelForm.htmx register_form).
Proof. apply dict_wf_two. discriminate. Qed.



(** X9. The form object left by one rendering is left unchanged by every
    further rendering, whether the rendering returned or raised; so from
    the second rendering on, every rendering of the same form object
    gives the same outcome. *)
Theorem form_render_settles (self : FloatingLabelForm.t) :
  form_wf self ->
  let self1 := snd (FloatingLabelForm.__xt__ self) in
  form_wf self1
  /\ snd (FloatingLabelForm.__xt__ self1) = self1
  /\ fst (FloatingLabelForm.__xt__ (snd (FloatingLabelForm.__xt__ self1)))
     = fst (FloatingLabelForm.__xt__ self1).
Proof.
  intros [Wh Ws] self1.
  destruct (render_sections_settles (FloatingLabelForm.sections self) Ws)
    as [S1 [S2 S3]].
  assert (E1 : form_wf self1 /\ snd (FloatingLabelForm.__xt__ self1) = self1).
  { subst self1. rewrite (xt_snd (snd _)). rewrite xt_snd. cbv zeta.
    destruct self as [ss sl c h cb].
    cbn [FloatingLabelForm.sections FloatingLabelForm.htmx
         FloatingLabelForm.submit_label FloatingLabelForm.cls
         FloatingLabelForm.custom_submit_button] in *.
    destruct (forallb section_ok ss) eqn:Eok;
      cbn [FloatingLabelForm.sections FloatingLabelForm.htmx
           FloatingLabelForm.submit_label FloatingLabelForm.cls
           FloatingLabelForm.custom_submit_button
           FloatingLabelForm.with_sections];
      rewrite S2.
    - split; [split; assumption |].
      rewrite S3. f_equal.
      destruct cb as [b|]; [| reflexivity].
      cbn [option_map]. now rewrite as_submit_idem.
    - split; [split; assumption |].
      cbn [FloatingLabelForm.with_sections FloatingLabelForm.submit_label
           FloatingLabelForm.cls FloatingLabelForm.htmx
           FloatingLabelForm.custom_submit_button].
      now rewrite S3. }
  destruct E1 as [Wf1 E1]. split; [exact Wf1 |]. split; [exact E1 |].
  now rewrite E1.
Qed.

Lemma styled_form_wf : form_wf styled_form.
Proof.
  split; [constructor |].
  repeat constructor. intros [].
Qed.

Lemma form_render_settles_witness :
  snd (FloatingLabelForm.__xt__ (snd (FloatingLabelForm.__xt__ styled_form)))
  = snd (FloatingLabelForm.__xt__ styled_form).
Proof.
  exact (proj1 (proj2 (form_render_settles styled_form styled_form_wf))).
Defined.

Lemma render_section_no_cls (section : FormSection.t) :
  section_no_cls section ->
  snd (FloatingLabelForm.render_section section) = section.
Proof.
  intros H. rewrite render_section_snd.
  destruct section as [fields layout]. unfold section_no_cls in H.
  unfold FormSection.with_fields.
  cbn [FormSection.fields FormSection.layout] in *.
  f_equal. destruct (String.eqb layout "double").
  - destruct fields as [|f0 [|f1 rest]]; [reflexivity | |].
    + inversion H; subst. now rewrite floating_input_no_cls_snd.
    + inversion H as [|? ? H0 Hr]; subst. inversion Hr; subst.
      now rewrite !floating_input_no_cls_snd.
  - transitivity (map (fun f : FormField.t => f) fields); [| apply map_id].
    apply map_ext_in. intros f Hf. apply floating_input_no_cls_snd.
    rewrite Forall_forall in H. now apply H.
Qed.

Lemma render_sections_no_cls (sections : list FormSection.t) :
  Forall section_no_cls sections ->
  snd (FloatingLabelForm.render_sections sections) = sections.
Proof.
  induction sections as [|s rest IH]; intros H; [reflexivity |].
  inversion H as [|? ? Hs Hr]; subst.
  cbn [FloatingLabelForm.render_sections].
  pose proof (render_section_no_cls s Hs) as E.
  destruct (FloatingLabelForm.render_section s) as [[n|e] s']; cbn [snd] in E;
    subst s'; [| reflexivity].
  specialize (IH Hr).
  destruct (FloatingLabelForm.render_sections rest) as [[ns|e] rest'];
    cbn [snd] in *; now subst.
Qed.

(** X10. When no field of a form carries a class among its additional
    attributes, rendering the same form object a second time gives the
    same outcome as the first time: the same tree, or the same error.
    This holds with a custom submit button too, although the first
    rendering assigns to it. *)
Theorem form_render_repeatable (self : FloatingLabelForm.t) :
  dict_wf (FloatingLabelForm.htmx self) ->
  Forall section_no_cls (FloatingLabelForm.sections self) ->
  fst (FloatingLabelForm.__xt__ (snd (FloatingLabelForm.__xt__ self)))
  = fst (FloatingLabelForm.__xt__ self).
Proof.
  intros Wh H.
  rewrite (xt_fst (snd _)), (xt_fst self), xt_snd. cbv zeta.
  rewrite (render_sections_no_cls _ H).
  destruct self as [ss sl c h cb].
  cbn [FloatingLabelForm.sections FloatingLabelForm.htmx
       FloatingLabelForm.submit_label FloatingLabelForm.cls
       FloatingLabelForm.custom_submit_button FloatingLabelForm.with_sections]
    in *.
  destruct (forallb section_ok ss);
    cbn [FloatingLabelForm.sections FloatingLabelForm.htmx
         FloatingLabelForm.cls]; [| reflexivity].
  destruct (fst (FloatingLabelForm.render_sections ss)) as [ns|e];
    [| reflexivity].
  assert (E : fst (FloatingLabelForm.render_submit_button
                     (FloatingLabelForm.mk ss sl c h (option_map (as_submit h) cb)))
              = fst (FloatingLabelForm.render_submit_button
                       (FloatingLabelForm.mk ss sl c h cb))).
  { unfold FloatingLabelForm.render_submit_button.
    cbn [FloatingLabelForm.custom_submit_button FloatingLabelForm.htmx
         FloatingLabelForm.submit_label].
    destruct cb as [b|]; [| reflexivity].
    cbn [option_map fst]. fold (as_submit h b).
    change (CustomButton.mk (CustomButton.label (as_submit h b))
              (CustomButton.style (as_submit h b)) "submit"
              (CustomButton.size (as_submit h b))
              (CustomButton.pill (as_submit h b))
              (dict_update (CustomButton.htmx (as_submit h b)) h)
              (CustomButton.additional_attrs (as_submit h b)))
      with (as_submit h (as_submit h b)).
    now rewrite as_submit_idem. }
  now rewrite E.
Qed.

Lemma register_form_no_cls :
  Forall section_no_cls (FloatingLabelForm.sections register_form).
Proof. repeat constructor. Qed.

Lemma form_render_repeatable_witness :
  fst (FloatingLabelForm.__xt__ (snd (FloatingLabelForm.__xt__ register_form)))
  = fst (FloatingLabelForm.__xt__ register_form).
Proof.
  exact (form_render_repeatable register_form register_form_htmx_wf
           register_form_no_cls).
Defined.

(* ================================================================= *)
(** ** Further properties: navigation bars *)

(** X11. The attributes of a rendered navigation bar are its class
    followed by one [hx_] entry per HTMX attribute, in their order: the
    class is never replaced by an HTMX attribute and every verb reaches
    the element under its rewritten key. *)
Theorem navbar_attributes (self : NavBar.t) :
  dict_wf (NavBar.htmx self) ->
  kwargs (NavBar.__xt__ self)
  = ("cls", PyStr (NavBar.cls self)) :: hx_entries (NavBar.htmx self)
  /\ attr "cls" (NavBar.__xt__ self) = Some (PyStr (NavBar.cls self))
  /\ (forall verb v,
         dict_get verb (NavBar.htmx self) = Some v ->
         attr (hx_key verb) (NavBar.__xt__ self) = Some (PyStr v))
  /\ dict_wf (kwargs (NavBar.__xt__ self)).
Proof.
  intros W. unfold attr, NavBar.__xt__. cbn [kwargs].
  rewrite (hx_dict_entries _ W).
  split; [reflexivity |]. split; [reflexivity |]. split.
  - intros verb v Hv. cbn [dict_get].
    destruct (String.eqb (hx_key verb) "cls") eqn:E.
    + apply String.eqb_eq in E. symmetry in E. now apply cls_not_hx in E.
    + now rewrite dict_get_hx_entries, Hv.
  - unfold dict_wf. cbn [keys map fst]. constructor.
    + fold (keys (hx_entries (NavBar.htmx self))).
      rewrite keys_hx_entries, in_map_iff. intros [verb [E _]].
      symmetry in E. now apply cls_not_hx in E.
    + now apply dict_wf_hx_entries.
Qed.

Lemma navbar_attributes_witness :
  kwargs (NavBar.__xt__ (create_navbar "/about"))
  = [ ("cls", PyStr "bg-white border-gray-200 dark:bg-gray-900");
      ("hx_boost", PyStr "true") ].
Proof.
  exact (proj1 (navbar_attributes (create_navbar "/about")
                  (dict_wf_one "boost" "true"))).
Defined.

Lemma has_current_menu_item (self : NavBar.t) (item : NavMenuItem.t) :
  has_current (NavBar._render_menu_item self item) = NavMenuItem.active item.
Proof.
  unfold has_current, NavBar._render_menu_item.
  cbn [link_of children_of hd kwargs].
  now destruct (NavMenuItem.active item).
Qed.

Lemma marked_entries_count (self : NavBar.t) :
  length (filter has_current (menu_entries self))
  = length (filter NavMenuItem.active (NavBar.menu_items self)).
Proof.
  unfold menu_entries, NavBar._render_menu. cbn [children_of hd].
  induction (NavBar.menu_items self) as [|item r IH]; [reflexivity |].
  cbn [map filter]. rewrite has_current_menu_item.
  destruct (NavMenuItem.active item); cbn [length]; now rewrite IH.
Qed.

(** X12. The menu of a navigation bar has one entry per menu item, in
    item order, and an entry's link carries [aria_current] in the markup
    exactly when its item is active: as many entries are marked as items
    are active, none when no item is active and several when several
    are. *)
Theorem navbar_marked_entries (self : NavBar.t) :
  length (menu_entries self) = length (NavBar.menu_items self)
  /\ map has_current (menu_entries self)
     = map NavMenuItem.active (NavBar.menu_items self)
  /\ length (filter has_current (menu_entries self))
     = length (filter NavMenuItem.active (NavBar.menu_items self)).
Proof.
  unfold menu_entries, NavBar._render_menu. cbn [children_of hd].
  split; [apply length_map |].
  split.
  - rewrite map_map. apply map_ext. intros item. apply has_current_menu_item.
  - apply (marked_entries_count self).
Qed.

(** X13. The navigation bar of the example marks the entry of the current
    path and no other: an entry is active exactly when its link target is
    the current path, at most one entry carries [aria_current], and
    exactly one does when the current path is one of the four pages. *)
Theorem create_navbar_marks_current (current_path : string) :
  (forall item,
      In item (NavBar.menu_items (create_navbar current_path)) ->
      (NavMenuItem.active item = true <-> NavMenuItem.href item = current_path))
  /\ length (filter has_current (menu_entries (create_navbar current_path))) <= 1
  /\ (In current_path ["/"; "/about"; "/register"; "/contact"] ->
      length (filter has_current (menu_entries (create_navbar current_path))) = 1).
Proof.
  split.
  - intros item H. cbn [create_navbar NavBar.menu_items] in H.
    destruct H as [<- | [<- | [<- | [<- | []]]]];
      cbn [NavMenuItem.active NavMenuItem.href];
      rewrite String.eqb_eq; split; congruence.
  - rewrite (marked_entries_count (create_navbar current_path)).
    cbn [create_navbar NavBar.menu_items].
    destruct (string_dec current_path "/") as [-> | N1];
      [split; [cbn; lia | reflexivity] |].
    destruct (string_dec current_path "/about") as [-> | N2];
      [split; [cbn; lia | reflexivity] |].
    destruct (string_dec current_path "/register") as [-> | N3];
      [split; [cbn; lia | reflexivity] |].
    destruct (string_dec current_path "/contact") as [-> | N4];
      [split; [cbn; lia | reflexivity] |].
    apply String.eqb_neq in N1, N2, N3, N4.
    cbn [filter NavMenuItem.active]. rewrite N1, N2, N3, N4. cbn [length].
    split; [lia |].
    apply String.eqb_neq in N1, N2, N3, N4.
    intros [H | [H | [H | [H | []]]]]; congruence.
Qed.

(* ================================================================= *)
(** ** Further properties: stripped classes *)

Lemma rstrip_idem (s : string) : rstrip (rstrip s) = rstrip s.
Proof.
  induction s as [|c r IH]; [reflexivity |].
  cbn [rstrip]. destruct (rstrip r) as [|c' r'] eqn:E.
  - destruct (is_space c) eqn:Ec; [reflexivity |].
    cbn [rstrip]. now rewrite Ec.
  - change (rstrip (String c (String c' r')))
      with (match rstrip (String c' r') with
            | EmptyString => if is_space c then EmptyString else String c EmptyString
            | x => String c x
            end).
    now rewrite IH.
Qed.

Lemma rstrip_head (c : ascii) (r : string) :
  is_space c = false -> exists r', rstrip (String c r) = String c r'.
Proof.
  intros H. cbn [rstrip]. destruct (rstrip r).
  - rewrite H. now eexists.
  - now eexists.
Qed.

Lemma lstrip_clean (s : string) :
  match lstrip s with
  | EmptyString => True
  | String c _ => is_space c = false
  end.
Proof.
  induction s as [|c r IH]; [exact I |].
  cbn [lstrip]. destruct (is_space c) eqn:E; [exact IH | exact E].
Qed.

(** Stripping twice is stripping once, and what stripping returns has no
    blank at either end. *)
Lemma strip_idem (s : string) : strip (strip s) = strip s.
Proof.
  unfold strip. pose proof (lstrip_clean s) as H.
  destruct (lstrip s) as [|c r]; [reflexivity |].
  destruct (rstrip_head c r H) as [r' E].
  assert (L : lstrip (rstrip (String c r)) = rstrip (String c r)).
  { rewrite E. now apply lstrip_head. }
  rewrite L. apply rstrip_idem.
Qed.

(** X14. The class of a menu entry's link and the class of a field's
    input are stripped strings: stripping them again changes nothing, so
    neither starts or ends with a blank, whatever the entry's or the
    field's own class is.  With an empty class of its own an entry has
    exactly the base class, a space and the selected class. *)
Theorem rendered_classes_are_stripped
        (self : NavBar.t) (item : NavMenuItem.t) (field : FormField.t) :
  field_wf field ->
  (exists c : string,
      attr "cls" (link_of (NavBar._render_menu_item self item)) = Some (PyStr c)
      /\ strip c = c
      /\ (NavMenuItem.cls item = "" ->
          c = NavBar.base_cls ++ " "
              ++ (if NavMenuItem.active item
                  then NavBar.active_cls else NavBar.inactive_cls)))
  /\ (exists c : string,
         attr "cls" (input_of (fst (FloatingLabelForm.floating_input field)))
         = Some (PyStr c)
         /\ strip c = c).
Proof.
  intros W. split.
  - eexists. split; [reflexivity |]. split; [apply strip_idem |].
    intros E. rewrite E.
    destruct (NavMenuItem.active item); reflexivity.
  - rewrite floating_input_cls by assumption.
    eexists. split; [reflexivity | apply strip_idem].
Qed.

Lemma rendered_classes_are_stripped_witness :
  exists c : string,
    attr "cls" (input_of (fst (FloatingLabelForm.floating_input styled_field)))
    = Some (PyStr c)
    /\ strip c = c.
Proof.
  exact (proj2 (rendered_classes_are_stripped
                  (create_navbar "/") (NavMenuItem.mk "Home" "/" true "")
                  styled_field styled_field_wf)).
Defined.

(* ================================================================= *)
(** ** Further properties: accordions *)

Lemma length_append (a b : string) :
  String.length (a ++ b) = String.length a + String.length b.
Proof. induction a; simpl; congruence. Qed.

Lemma append_inv_tail (a b s : string) : a ++ s = b ++ s -> a = b.
Proof.
  revert b. induction a as [|c a IH]; intros [|c' b] H.
  - reflexivity.
  - apply (f_equal String.length) in H.
    cbn [append String.length] in H. rewrite length_append in H. lia.
  - apply (f_equal String.length) in H.
    cbn [append String.length] in H. rewrite length_append in H. lia.
  - simpl in H. injection H as -> H. f_equal. now apply IH.
Qed.

Lemma list_ascii_of_append (a b : string) :
  list_ascii_of_string (a ++ b)
  = (list_ascii_of_string a ++ list_ascii_of_string b)%list.
Proof. induction a; simpl; congruence. Qed.

(** An identifier ending in [-heading] is never one ending in [-body]. *)
Lemma heading_is_not_body (a b : string) : a ++ "-heading" <> b ++ "-body".
Proof.
  intros H. apply (f_equal list_ascii_of_string) in H.
  rewrite !list_ascii_of_append in H.
  apply (f_equal (fun l => last l "x"%char)) in H.
  change (list_ascii_of_string "-heading")
    with (list_ascii_of_string "-headin" ++ ["g"%char])%list in H.
  change (list_ascii_of_string "-body")
    with (list_ascii_of_string "-bod" ++ ["y"%char])%list in H.
  rewrite !app_assoc, !last_last in H. discriminate H.
Qed.

Lemma NoDup_map_injective {A B : Type} (f : A -> B) (l : list A) :
  (forall x y, f x = f y -> x = y) -> NoDup l -> NoDup (map f l).
Proof.
  intros Inj. induction l as [|a l IH]; intros H; [constructor |].
  inversion H as [|? ? Hnin Hl]; subst. cbn [map]. constructor; [| auto].
  rewrite in_map_iff. intros [x [E Hx]]. apply Inj in E. now subst.
Qed.

Lemma accordion_element_ids (self : Accordion.t) :
  element_ids (children_of (Accordion.__xt__ self))
  = (map (fun s => Some (PyStr (s ++ "-heading")))
         (map AccordionItem.id (Accordion.items self))
     ++ map (fun s => Some (PyStr (s ++ "-body")))
            (map AccordionItem.id (Accordion.items self)))%list.
Proof.
  unfold element_ids, Accordion.__xt__. cbn [children_of].
  rewrite !map_map. reflexivity.
Qed.

(** X15. When the items of an accordion have pairwise different
    identifiers, the element identifiers of the rendered headers and
    bodies are all different from one another: no two headers, no two
    bodies, and no header and body share one. *)
Theorem accordion_unique_element_ids (self : Accordion.t) :
  NoDup (map AccordionItem.id (Accordion.items self)) ->
  NoDup (element_ids (children_of (Accordion.__xt__ self)))
  /\ length (element_ids (children_of (Accordion.__xt__ self)))
     = 2 * length (Accordion.items self).
Proof.
  intros H. rewrite accordion_element_ids. split.
  - apply NoDup_app.
    + apply NoDup_map_injective; [| exact H].
      intros x y E. injection E as E. now apply append_inv_tail in E.
    + apply NoDup_map_injective; [| exact H].
      intros x y E. injection E as E. now apply append_inv_tail in E.
    + intros v Hh Hb. rewrite in_map_iff in Hh, Hb.
      destruct Hh as [a [<- _]]. destruct Hb as [b [E _]].
      injection E as E. symmetry in E. now apply heading_is_not_body in E.
  - rewrite length_app, !length_map. lia.
Qed.

Lemma accordion_unique_element_ids_witness :
  NoDup (element_ids
           (children_of
              (Accordion.__xt__
                 (Accordion.mk
                    [ AccordionItem.mk "First" ["one"] "a";
                      AccordionItem.mk "Second" [] "a-heading" ])))).
Proof.
  refine (proj1 (accordion_unique_element_ids
                   (Accordion.mk
                      [ AccordionItem.mk "First" ["one"] "a";
                        AccordionItem.mk "Second" [] "a-heading" ]) _)).
  cbn [Accordion.items map AccordionItem.id].
  constructor; [| constructor; [intros [] | constructor]].
  intros [E | []]. discriminate E.
Defined.

(* ================================================================= *)
(** ** Further properties: what rendering leaves behind *)

(** X16. What rendering a ["double"] section leaves behind.  With two or
    more fields, the first two are left as their own rendering leaves
    them and every further field is untouched.  With one field the
    rendering raises [IndexError], yet that field has already been
    rendered: it is left without a class among its additional
    attributes.  With no field the section is untouched. *)
Theorem double_section_leftover (section : FormSection.t) :
  section_wf section ->
  FormSection.layout section = "double" ->
  match FormSection.fields section with
  | f0 :: f1 :: rest =>
      FormSection.fields (snd (FloatingLabelForm.render_section section))
      = snd (FloatingLabelForm.floating_input f0)
          :: snd (FloatingLabelForm.floating_input f1) :: rest
  | [f0] =>
      fst (FloatingLabelForm.render_section section) = Raised IndexError
      /\ (exists f0',
             FormSection.fields (snd (FloatingLabelForm.render_section section))
             = [f0']
             /\ dict_get "cls" (FormField.additional_attrs f0') = None)
  | [] => snd (FloatingLabelForm.render_section section) = section
  end.
Proof.
  intros W L. rewrite render_section_snd.
  pose proof (render_section_fst section) as F.
  rewrite (section_ok_double section L) in F.
  destruct section as [fields layout]. unfold section_wf in W.
  cbn [FormSection.fields FormSection.layout FormSection.with_fields] in *.
  subst layout. cbn [String.eqb Ascii.eqb Bool.eqb].
  destruct fields as [|f0 [|f1 rest]].
  - reflexivity.
  - cbn [length Nat.leb] in F. split; [exact F |].
    eexists. split; [reflexivity |].
    inversion W; subst. now apply floating_input_settled.
  - reflexivity.
Qed.

Lemma double_section_leftover_witness :
  fst (FloatingLabelForm.render_section
         (FormSection.mk [styled_field] "double")) = Raised IndexError
  /\ (exists f0',
         FormSection.fields
           (snd (FloatingLabelForm.render_section
                   (FormSection.mk [styled_field] "double")))
         = [f0']
         /\ dict_get "cls" (FormField.additional_attrs f0') = None).
Proof.
  exact (double_section_leftover (FormSection.mk [styled_field] "double")
           (Forall_cons styled_field styled_field_wf (Forall_nil field_wf))
           eq_refl).
Defined.


